(** * Bakery delivery frontend: cart, checkout and user administration

    A shallow embedding of the event handlers of
    [frontend/src/pages/ProductsPage.tsx] and
    [frontend/src/pages/AdminDashboard.tsx].

    React component state ([useState]) and the observable effects of a
    handler (toasts, query invalidations, calls to [apiService], form
    resets) are threaded through a small state monad.  JavaScript arrays
    are lists.  In the handlers a quantity is an integer [Z] and a price
    a decimal [Q]; module [Float64] has the arithmetic of the cart (the
    increment of a quantity, the typed quantity, the order summary) on
    binary64 numbers, as JavaScript computes it. *)

From Stdlib Require Import ZArith QArith Qround List String Ascii Bool Lia.
From Stdlib Require Import Qabs DecimalString.
From Stdlib Require Import Floats.
From Stdlib Require Import DecimalPos DecimalN.
Import ListNotations.

Local Open Scope string_scope.
Local Open Scope Z_scope.
Local Open Scope list_scope.

(** ** JavaScript values used by the handlers *)

Module JS.

(** [a || d] on strings where [a] may be [undefined] (optional chaining
    [user?.email]): [undefined] and the empty string are falsy. *)
Definition or_default (a : option string) (d : string) : string :=
  match a with
  | None => d
  | Some s => if String.eqb s "" then d else s
  end.

(** A rejected promise carries an [Error]; the handlers read [message]. *)
Record Error := mkError { message : string }.

(** Outcome of a promise once it settles. *)
Inductive Settled (A : Type) :=
| Resolved (data : A)
| Rejected (error : Error).
Arguments Resolved {A} data.
Arguments Rejected {A} error.

(** Decimal digits of a natural number, as [String(n)]. *)
Definition digits (n : Z) : string :=
  NilZero.string_of_uint (N.to_uint (Z.to_N n)).

(** The rounding step of [toFixed(2)] on the exact value [x] of a
    number below 1e21 in magnitude: the integer [n] nearest to
    [100 * |x|] (the larger one on a tie), printed with two decimals,
    after a minus sign when [x < 0].  [Float64.toFixed2] applies it to
    the exact value of a binary64 number. *)
Definition toFixed2 (x : Q) : string :=
  let n := Qfloor (Qabs x * 100 + (1 # 2))%Q in
  let cents := n mod 100 in
  (if Qle_bool 0 x then "" else "-")
    ++ digits (n / 100) ++ "."
    ++ (if cents <? 10 then "0" else "") ++ digits cents.

End JS.
Import JS.

(** ** State monad for handlers *)

Definition M (S A : Type) : Type := S -> A * S.

Definition ret {S A} (a : A) : M S A := fun s => (a, s).

Definition bind {S A B} (m : M S A) (k : A -> M S B) : M S B :=
  fun s => let (a, s') := m s in k a s'.

Definition modify {S} (f : S -> S) : M S unit := fun s => (tt, f s).

Definition gets {S A} (f : S -> A) : M S A := fun s => (f s, s).

(** Final state of running a handler. *)
Definition exec {S A} (m : M S A) (s : S) : S := snd (m s).

Declare Scope handler_scope.
Delimit Scope handler_scope with handler.
Notation "x <- c ;; k" := (bind c (fun x => k))
  (at level 61, c at next level, right associativity) : handler_scope.
Notation "c ;; k" := (bind c (fun _ => k))
  (at level 61, right associativity) : handler_scope.
Local Open Scope handler_scope.

(** ** Data model ([../types]) *)

Module Category.
(** Modelled from the spec: the [Category] type of [../types]:
    identifier and name. *)
Record t := mk { id : Z; name : string }.
End Category.

Module Product.
(** Modelled from the spec: the [Product] type of [../types], with the
    fields the pages read. *)
Record t := mk {
  id : Z;
  name : string;
  description : option string;
  price : Q;
  image_url : option string;
  stock_quantity : Z;
  is_available : bool;
  baker_id : Z;
  category : option Category.t
}.
End Product.

Module Role.
(** Modelled from the spec: the closed set of roles. *)
Inductive t := admin | baker | delivery_person | customer.
End Role.

Module User.
(** Modelled from the spec: the [User] type of [../types]. *)
Record t := mk {
  id : Z;
  full_name : string;
  email : string;
  username : string;
  role : Role.t;
  phone : option string;
  address : option string;
  is_active : bool;
  created_at : string
}.
End User.

(** [toast.success] / [toast.error] of react-hot-toast. *)
Inductive Toast :=
| ToastSuccess (msg : string)
| ToastError (msg : string).

(** ** react-query mutations *)

(** [useMutation({ mutationFn, onSuccess, onError })] over a page whose
    state is [S]. *)
Record Mutation (S V D : Type) := mkMutation {
  mutationFn : V -> M S (Settled D);
  onSuccess : D -> M S unit;
  onError : Error -> M S unit
}.
Arguments mkMutation {S V D}.
Arguments mutationFn {S V D}.
Arguments onSuccess {S V D}.
Arguments onError {S V D}.

(** [mutation.mutateAsync(variables)]: run [mutationFn], then the callback
    matching how its promise settled; the returned promise settles the
    same way. *)
Definition mutateAsync {S V D} (m : Mutation S V D) (v : V)
  : M S (Settled D) :=
  r <- mutationFn m v ;;
  match r with
  | Resolved d => onSuccess m d
  | Rejected e => onError m e
  end ;;
  ret r.

(** [mutation.mutate(variables)]: as [mutateAsync], result dropped. *)
Definition mutate {S V D} (m : Mutation S V D) (v : V) : M S unit :=
  mutateAsync m v ;; ret tt.

(** ** ProductsPage.tsx *)

Module ProductsPage.

(** Element type of the [cart] state:
    [Array<{ product: Product; quantity: number }>], with the quantity
    an integer; [Float64.Line] has it as a binary64 number. *)
Module CartItem.
Record t := mk { product : Product.t; quantity : Z }.
End CartItem.

Definition Cart := list CartItem.t.

(** Values of the checkout form. *)
Module CheckoutForm.
Record t := mk {
  delivery_address : string;
  delivery_instructions : option string
}.
End CheckoutForm.

Module OrderItem.
Record t := mk { product_name : string; quantity : Z }.
End OrderItem.

(** Argument of [apiService.createOrder]: [{ ...orderData, items }]. *)
Module OrderRequest.
Record t := mk {
  delivery_address : string;
  delivery_instructions : option string;
  items : list OrderItem.t
}.
End OrderRequest.

Module Order.
(** Modelled from the spec: the [Order] returned by [createOrder];
    the page never reads it. *)
Record t := mk { id : Z }.
End Order.

(** Values of the product form; [baker_email] is added by
    [handleCreateProduct]. *)
Module ProductFormData.
Record t := mk {
  name : string;
  description : string;
  price : Q;
  image_url : string;
  stock_quantity : Z;
  category_name : string;
  baker_email : option string
}.
End ProductFormData.

(** Calls that reach the backing service through [apiService]. *)
Inductive Request :=
| CreateOrder (r : OrderRequest.t)
| CreateProduct (d : ProductFormData.t).

Inductive Form := ProductForm | CheckoutFormId.

Definition QueryKey := list string.

(** Component state ([useState] hooks other than [filters]) together
    with the effects a handler leaves behind. *)
Record State := mkState {
  cart : Cart;
  showCart : bool;
  editingProduct : option Product.t;
  showProductForm : bool;
  toasts : list Toast;
  invalidated : list QueryKey;
  requests : list Request;
  resets : list Form
}.

Definition setCart (f : Cart -> Cart) : M State unit :=
  modify (fun s => mkState (f (cart s)) (showCart s) (editingProduct s)
    (showProductForm s) (toasts s) (invalidated s) (requests s) (resets s)).

Definition setShowCart (b : bool) : M State unit :=
  modify (fun s => mkState (cart s) b (editingProduct s)
    (showProductForm s) (toasts s) (invalidated s) (requests s) (resets s)).

Definition setShowProductForm (b : bool) : M State unit :=
  modify (fun s => mkState (cart s) (showCart s) (editingProduct s)
    b (toasts s) (invalidated s) (requests s) (resets s)).

Definition toast (t : Toast) : M State unit :=
  modify (fun s => mkState (cart s) (showCart s) (editingProduct s)
    (showProductForm s) (toasts s ++ [t]) (invalidated s) (requests s)
    (resets s)).

Definition toast_success (msg : string) := toast (ToastSuccess msg).
Definition toast_error (msg : string) := toast (ToastError msg).

Definition invalidateQueries (k : QueryKey) : M State unit :=
  modify (fun s => mkState (cart s) (showCart s) (editingProduct s)
    (showProductForm s) (toasts s) (invalidated s ++ [k]) (requests s)
    (resets s)).

Definition send (r : Request) : M State unit :=
  modify (fun s => mkState (cart s) (showCart s) (editingProduct s)
    (showProductForm s) (toasts s) (invalidated s) (requests s ++ [r])
    (resets s)).

Definition resetForm (f : Form) : M State unit :=
  modify (fun s => mkState (cart s) (showCart s) (editingProduct s)
    (showProductForm s) (toasts s) (invalidated s) (requests s)
    (resets s ++ [f])).

Definition reset := resetForm ProductForm.
Definition resetCheckout := resetForm CheckoutFormId.

(** The part of [../services/api] the page calls: how the backing
    service answers each request. *)
Record ApiService := mkApi {
  createOrder : OrderRequest.t -> Settled Order.t;
  createProduct : ProductFormData.t -> Settled Product.t
}.

Section Page.

(** [const { user } = useAuth()] *)
Variable user : option User.t.
Variable apiService : ApiService.

Definition addToCartMutation : Mutation State Product.t Product.t :=
  mkMutation
    (fun product =>
       setCart (fun prevCart =>
         let existingItem :=
           find (fun item =>
                   Product.id (CartItem.product item) =? Product.id product)
                prevCart in
         match existingItem with
         | Some _ =>
             map (fun item =>
                    if Product.id (CartItem.product item) =? Product.id product
                    then CartItem.mk (CartItem.product item) ((CartItem.quantity item) + 1)
                    else item)
                 prevCart
         | None => prevCart ++ [CartItem.mk product 1]
         end) ;;
       ret (Resolved product))
    (fun _ => toast_success "Added to cart!")
    (fun _ => ret tt).

Definition createProductMutation
  : Mutation State ProductFormData.t Product.t :=
  mkMutation
    (fun productData =>
       send (CreateProduct productData) ;;
       ret (createProduct apiService productData))
    (fun _ =>
       invalidateQueries ["products"] ;;
       toast_success "Product created successfully!" ;;
       setShowProductForm false ;;
       reset)
    (fun error =>
       toast_error
         (or_default (Some (message error)) "Failed to create product")).

Definition checkoutMutation : Mutation State CheckoutForm.t Order.t :=
  mkMutation
    (fun orderData =>
       c <- gets cart ;;
       let items :=
         map (fun item =>
                OrderItem.mk (Product.name (CartItem.product item))
                             (CartItem.quantity item)) c in
       let request :=
         OrderRequest.mk
           (CheckoutForm.delivery_address orderData)
           (CheckoutForm.delivery_instructions orderData)
           items in
       send (CreateOrder request) ;;
       ret (createOrder apiService request))
    (fun _ =>
       invalidateQueries ["orders"] ;;
       toast_success "Order placed successfully!" ;;
       setCart (fun _ => []) ;;
       setShowCart false ;;
       resetCheckout)
    (fun error =>
       toast_error
         (or_default (Some (message error)) "Failed to place order")).

Definition handleAddToCart (product : Product.t) : M State unit :=
  if Product.stock_quantity product >? 0
  then mutate addToCartMutation product
  else toast_error "Product is out of stock".

Definition handleCreateProduct (data : ProductFormData.t)
  : M State unit :=
  let bakerEmail :=
    or_default (option_map User.email user) "default@baker.com" in
  let productDataWithBaker :=
    ProductFormData.mk
      (ProductFormData.name data) (ProductFormData.description data)
      (ProductFormData.price data) (ProductFormData.image_url data)
      (ProductFormData.stock_quantity data)
      (ProductFormData.category_name data)
      (Some bakerEmail) in
  mutate createProductMutation productDataWithBaker.

Definition handleRemoveFromCart (productId : Z) : M State unit :=
  setCart (fun prevCart =>
    filter (fun item => negb (Product.id (CartItem.product item) =? productId))
           prevCart) ;;
  toast_success "Removed from cart".

Definition handleUpdateCartQuantity (productId newQuantity : Z)
  : M State unit :=
  if newQuantity <? 1
  then handleRemoveFromCart productId
  else
    setCart (fun prevCart =>
      map (fun item =>
             if Product.id (CartItem.product item) =? productId
             then CartItem.mk (CartItem.product item) newQuantity
             else item)
          prevCart).

Definition handleCheckout (data : CheckoutForm.t) : M State unit :=
  c <- gets cart ;;
  if (Z.of_nat (List.length c) =? 0)
  then toast_error "Your cart is empty"
  else mutate checkoutMutation data.

(** *** Controls that invoke the cart handlers *)

(** [disabled] of the "Add to Cart" button on a product card. *)
Definition addToCartDisabled (p : Product.t) : bool :=
  negb (Product.is_available p) || (Product.stock_quantity p =? 0).

(** A click on that button: a disabled button fires no [onClick]. *)
Definition clickAddToCart (p : Product.t) : M State unit :=
  if addToCartDisabled p then ret tt else handleAddToCart p.

(** [disabled] of the "+" button on a cart line. *)
Definition plusDisabled (item : CartItem.t) : bool :=
  (CartItem.quantity item) >=? Product.stock_quantity (CartItem.product item).

Definition clickPlus (item : CartItem.t) : M State unit :=
  if plusDisabled item then ret tt
  else handleUpdateCartQuantity (Product.id (CartItem.product item))
                                ((CartItem.quantity item) + 1).

Definition clickMinus (item : CartItem.t) : M State unit :=
  handleUpdateCartQuantity (Product.id (CartItem.product item))
                           ((CartItem.quantity item) - 1).

End Page.

End ProductsPage.

(** ** User records in the backing service *)

Module Backend.

(** [Partial<User>] restricted to the editable fields, the shape of the
    [UserForm] data: an absent field is [None]. *)
Module PartialUser.
Record t := mk {
  full_name : option string;
  email : option string;
  username : option string;
  role : option Role.t;
  phone : option (option string);
  address : option (option string);
  is_active : option bool
}.

Definition empty : t := mk None None None None None None None.
End PartialUser.

Definition Users := list User.t.

Definition from_option {A} (o : option A) (d : A) : A :=
  match o with Some a => a | None => d end.

(** Modelled from the spec: the partial update behind
    [updateUser(id, partialData)], whose implementation is in the
    backend: every field present in the payload replaces the stored
    one, every absent field is kept. *)
Definition patch (u : User.t) (d : PartialUser.t) : User.t :=
  User.mk (User.id u)
    (from_option (PartialUser.full_name d) (User.full_name u))
    (from_option (PartialUser.email d) (User.email u))
    (from_option (PartialUser.username d) (User.username u))
    (from_option (PartialUser.role d) (User.role u))
    (from_option (PartialUser.phone d) (User.phone u))
    (from_option (PartialUser.address d) (User.address u))
    (from_option (PartialUser.is_active d) (User.is_active u))
    (User.created_at u).

(** Modelled from the spec: [updateUser(id, partialData)] patches the
    record whose identifier is [id]. *)
Definition updateUser (id : Z) (d : PartialUser.t) (db : Users) : Users :=
  map (fun u => if User.id u =? id then patch u d else u) db.

(** Modelled from the spec: [deactivateUser(id)] sets the active flag
    of the record whose identifier is [id] to false. *)
Definition deactivateUser (id : Z) (db : Users) : Users :=
  map (fun u =>
         if User.id u =? id
         then User.mk (User.id u) (User.full_name u) (User.email u)
                (User.username u) (User.role u) (User.phone u)
                (User.address u) false (User.created_at u)
         else u) db.

(** The record stored under [id], as [listUsers] would return it. *)
Definition lookup (id : Z) (db : Users) : option User.t :=
  find (fun u => User.id u =? id) db.

End Backend.

(** ** AdminDashboard.tsx *)

Module AdminDashboard.
Import Backend.

(** Calls that reach the backing service through [apiService]. *)
Inductive Request :=
| DeactivateUser (id : Z)
| UpdateUser (id : Z) (userData : PartialUser.t).

Definition QueryKey := list string.

(** Component state and effects, next to the user records held by the
    backing service. *)
Record State := mkState {
  selectedUser : option User.t;
  userDialogOpen : bool;
  editingUser : option User.t;
  toasts : list Toast;
  invalidated : list QueryKey;
  requests : list Request;
  users : Users
}.

Definition setSelectedUser (u : option User.t) : M State unit :=
  modify (fun s => mkState u (userDialogOpen s) (editingUser s)
    (toasts s) (invalidated s) (requests s) (users s)).

Definition setUserDialogOpen (b : bool) : M State unit :=
  modify (fun s => mkState (selectedUser s) b (editingUser s)
    (toasts s) (invalidated s) (requests s) (users s)).

Definition setEditingUser (u : option User.t) : M State unit :=
  modify (fun s => mkState (selectedUser s) (userDialogOpen s) u
    (toasts s) (invalidated s) (requests s) (users s)).

Definition toast (t : Toast) : M State unit :=
  modify (fun s => mkState (selectedUser s) (userDialogOpen s)
    (editingUser s) (toasts s ++ [t]) (invalidated s) (requests s)
    (users s)).

Definition toast_success (msg : string) := toast (ToastSuccess msg).
Definition toast_error (msg : string) := toast (ToastError msg).

Definition invalidateQueries (k : QueryKey) : M State unit :=
  modify (fun s => mkState (selectedUser s) (userDialogOpen s)
    (editingUser s) (toasts s) (invalidated s ++ [k]) (requests s)
    (users s)).

Definition send (r : Request) : M State unit :=
  modify (fun s => mkState (selectedUser s) (userDialogOpen s)
    (editingUser s) (toasts s) (invalidated s) (requests s ++ [r])
    (users s)).

Definition serve (f : Users -> Users) : M State unit :=
  modify (fun s => mkState (selectedUser s) (userDialogOpen s)
    (editingUser s) (toasts s) (invalidated s) (requests s)
    (f (users s))).

Section Page.

(** Answer of the user to [window.confirm(message)]. *)
Variable confirm : string -> bool.

(** Transport to the backing service: [Some e] when the call for a
    request is rejected with [e] before the service applies it. *)
Variable failure : Request -> option Error.

(** [apiService.deactivateUser(id)] *)
Definition api_deactivateUser (id : Z) : M State (Settled unit) :=
  send (DeactivateUser id) ;;
  match failure (DeactivateUser id) with
  | Some e => ret (Rejected e)
  | None => serve (deactivateUser id) ;; ret (Resolved tt)
  end.

(** [apiService.updateUser(id, userData)] *)
Definition api_updateUser (id : Z) (userData : PartialUser.t)
  : M State (Settled unit) :=
  send (UpdateUser id userData) ;;
  match failure (UpdateUser id userData) with
  | Some e => ret (Rejected e)
  | None => serve (updateUser id userData) ;; ret (Resolved tt)
  end.

Definition updateUserMutation
  : Mutation State (Z * PartialUser.t) unit :=
  mkMutation
    (fun '(id, userData) => api_updateUser id userData)
    (fun _ =>
       invalidateQueries ["admin-users"] ;;
       toast_success "User updated successfully!" ;;
       setEditingUser None ;;
       setUserDialogOpen false)
    (fun error =>
       toast_error
         (or_default (Some (message error)) "Failed to update user")).

Definition deactivateUserMutation : Mutation State Z unit :=
  mkMutation
    (fun id => api_deactivateUser id)
    (fun _ =>
       invalidateQueries ["admin-users"] ;;
       toast_success "User deactivated successfully!" ;;
       setSelectedUser None)
    (fun error =>
       toast_error
         (or_default (Some (message error))
                     "Failed to deactivate user")).

Definition handleDeactivateUser (userId : Z) : M State unit :=
  if confirm "Are you sure you want to deactivate this baker?"
  then mutateAsync deactivateUserMutation userId ;; ret tt
  else ret tt.

Definition handleActivateUser (userId : Z) : M State unit :=
  if confirm "Are you sure you want to activate this baker?"
  then
    mutateAsync updateUserMutation
      (userId,
       PartialUser.mk None None None None None None (Some true)) ;;
    ret tt
  else ret tt.

End Page.

End AdminDashboard.

(** ** Notions taken from the specification *)

Module Spec.
Import ProductsPage.

(** [x] clamped to the interval [[lo, hi]]. *)
Definition clamp (lo hi x : Z) : Z := Z.max lo (Z.min hi x).

(** A line's quantity is at least 1 and at most the stock of its
    product. *)
Definition line_ok (item : CartItem.t) : Prop :=
  1 <= CartItem.quantity item
       <= Product.stock_quantity (CartItem.product item).

Definition cart_ok (c : Cart) : Prop := Forall line_ok c.

(** An integer that binary64 numbers hold and increment exactly:
    below 2^53 in magnitude. *)
Definition safe_integer (z : Z) : Prop := - 2 ^ 53 < z < 2 ^ 53.

(** The lower half of the invariant alone. *)
Definition cart_positive (c : Cart) : Prop :=
  Forall (fun item => 1 <= CartItem.quantity item) c.

(** The cart has a line for product identifier [productId]. *)
Definition has_line (productId : Z) (c : Cart) : Prop :=
  exists item, In item c /\ Product.id (CartItem.product item) = productId.

(** The order request derived from the cart at submission time: the
    delivery details and one (product name, quantity) pair per line. *)
Definition order_request (data : CheckoutForm.t) (c : Cart)
  : OrderRequest.t :=
  OrderRequest.mk (CheckoutForm.delivery_address data)
    (CheckoutForm.delivery_instructions data)
    (map (fun item =>
            OrderItem.mk (Product.name (CartItem.product item))
                         (CartItem.quantity item)) c).

(** The product data of the form, carrying [baker_email]. *)
Definition with_baker (data : ProductFormData.t) (baker_email : string)
  : ProductFormData.t :=
  ProductFormData.mk
    (ProductFormData.name data) (ProductFormData.description data)
    (ProductFormData.price data) (ProductFormData.image_url data)
    (ProductFormData.stock_quantity data)
    (ProductFormData.category_name data) (Some baker_email).

(** [u] with its active flag set to [b] and every other field kept. *)
Definition with_active (u : User.t) (b : bool) : User.t :=
  User.mk (User.id u) (User.full_name u) (User.email u) (User.username u)
          (User.role u) (User.phone u) (User.address u) b
          (User.created_at u).

End Spec.

(** ** Concrete products, carts and pages *)

Module Samples.
Import ProductsPage.

Definition bread (id : Z) (name : string) (price : Q) (stock : Z)
           (available : bool) : Product.t :=
  Product.mk id name None price None stock available 1 None.

Definition pandesal : Product.t := bread 1 "Pandesal" 10 20 true.
Definition ensaymada : Product.t := bread 2 "Ensaymada" 25 8 true.
(** In stock but switched off by its baker. *)
Definition hidden_loaf : Product.t := bread 3 "Monay" 15 5 false.
(** Available, none left. *)
Definition sold_out : Product.t := bread 4 "Spanish bread" 12 0 true.
(** One piece left. *)
Definition last_piece : Product.t := bread 5 "Ube cake" 300 1 true.

Definition page (c : Cart) : State :=
  mkState c true None false [] [] [] [].

Definition scenario_cart : Cart :=
  [CartItem.mk pandesal 3; CartItem.mk ensaymada 2].

Definition address : CheckoutForm.t :=
  CheckoutForm.mk "12 Datu Halun St, Bongao" None.

(** A backing service that accepts every request. *)
Definition accepting : ApiService :=
  mkApi (fun _ => Resolved (Order.mk 1)) (fun _ => Resolved pandesal).

(** A backing service that rejects every request with [msg]. *)
Definition rejecting (msg : string) : ApiService :=
  mkApi (fun _ => Rejected (mkError msg))
        (fun _ => Rejected (mkError msg)).

Definition form : ProductFormData.t :=
  ProductFormData.mk "Pan de coco" "" 8 "" 30 "Bread" None.

Definition maria : User.t :=
  User.mk 7 "Maria Santos" "maria@bakery.ph" "maria" Role.baker
          (Some "0917") None true "2024-01-05".

(** An account whose email is the empty string. *)
Definition no_email : User.t :=
  User.mk 8 "Walk-in" "" "walkin" Role.baker None None true "2024-02-01".

(** The admin page over a store holding both accounts. *)
Definition admin_page : AdminDashboard.State :=
  AdminDashboard.mkState None false None [] [] [] [maria; no_email].

(** A user who confirms every dialog. *)
Definition always_yes (question : string) : bool := true.

(** A transport on which every call reaches the backing service. *)
Definition reliable (r : AdminDashboard.Request) : option Error := None.

End Samples.

(** ** Sessions of cart actions *)

Module Session.
Import ProductsPage.

(** Product identifiers of the lines, in order; the cart dialog uses
    them as React keys. *)
Definition ids (c : Cart) : list Z :=
  map (fun item => Product.id (CartItem.product item)) c.

(** What a customer can do to the cart, one handler call each. *)
Inductive Action :=
| AddToCart (product : Product.t)
| UpdateCartQuantity (productId newQuantity : Z)
| RemoveFromCart (productId : Z)
| Checkout (data : CheckoutForm.t).

Definition step (apiService : ApiService) (a : Action) : M State unit :=
  match a with
  | AddToCart product => handleAddToCart product
  | UpdateCartQuantity productId newQuantity =>
      handleUpdateCartQuantity productId newQuantity
  | RemoveFromCart productId => handleRemoveFromCart productId
  | Checkout data => handleCheckout apiService data
  end.

(** The handler calls of a session, one after the other. *)
Fixpoint play (apiService : ApiService) (actions : list Action)
  : M State unit :=
  match actions with
  | [] => ret tt
  | a :: rest => step apiService a ;; play apiService rest
  end.

End Session.

(** ** ProductsPage.tsx: editing and deleting products *)

Module Catalog.
Import ProductsPage.

Definition eqb_role (a b : Role.t) : bool :=
  match a, b with
  | Role.admin, Role.admin
  | Role.baker, Role.baker
  | Role.delivery_person, Role.delivery_person
  | Role.customer, Role.customer => true
  | _, _ => false
  end.

(** [user?.role === r]: false without a user. *)
Definition role_is (user : option User.t) (r : Role.t) : bool :=
  match user with
  | Some u => eqb_role (User.role u) r
  | None => false
  end.

(** [const isBakerOrAdmin = user?.role === 'baker' || user?.role ===
    'admin'] *)
Definition isBakerOrAdmin (user : option User.t) : bool :=
  role_is user Role.baker || role_is user Role.admin.

(** Condition of the "Add Product" button: [user?.role !== 'customer']. *)
Definition addProductShown (user : option User.t) : bool :=
  negb (role_is user Role.customer).

(** Buttons of a product card:
    [user?.role === 'customer' ? <Add to Cart/> : <><Edit/><Delete/></>]. *)
Inductive CardAction := AddToCartButton | EditButton | DeleteButton.

Definition cardActions (user : option User.t) : list CardAction :=
  if role_is user Role.customer
  then [AddToCartButton]
  else [EditButton; DeleteButton].

(** Calls of the update and delete mutations. *)
Inductive Request :=
| UpdateProduct (id : Z) (data : ProductFormData.t)
| DeleteProduct (id : Z).

Record ApiService := mkApi {
  updateProduct : Z -> ProductFormData.t -> Settled Product.t;
  deleteProduct : Z -> Settled unit
}.

(** The page state, next to the update and delete calls sent so far. *)
Record State := mkState {
  page : ProductsPage.State;
  requests : list Request
}.

(** A step of the page that sends no update or delete call. *)
Definition lift {A} (m : M ProductsPage.State A) : M State A :=
  fun s => let (a, p) := m (page s) in (a, mkState p (requests s)).

Definition send (r : Request) : M State unit :=
  modify (fun s => mkState (page s) (requests s ++ [r])).

Definition setEditingProduct (p : option Product.t)
  : M ProductsPage.State unit :=
  modify (fun s =>
    ProductsPage.mkState (cart s) (showCart s) p (showProductForm s)
      (toasts s) (invalidated s) (ProductsPage.requests s) (resets s)).

Section Page.

Variable user : option User.t.
(** Answer of the user to [window.confirm(message)]. *)
Variable confirm : string -> bool.
Variable productsApi : ProductsPage.ApiService.
Variable apiService : ApiService.

Definition updateProductMutation
  : Mutation State (Z * ProductFormData.t) Product.t :=
  mkMutation
    (fun '(id, data) =>
       send (UpdateProduct id data) ;;
       ret (updateProduct apiService id data))
    (fun _ =>
       lift (invalidateQueries ["products"] ;;
             toast_success "Product updated successfully!" ;;
             setEditingProduct None ;;
             reset))
    (fun error =>
       lift (toast_error
               (or_default (Some (message error))
                           "Failed to update product"))).

Definition deleteProductMutation : Mutation State Z unit :=
  mkMutation
    (fun id =>
       send (DeleteProduct id) ;;
       ret (deleteProduct apiService id))
    (fun _ =>
       lift (invalidateQueries ["products"] ;;
             toast_success "Product deleted successfully!"))
    (fun error =>
       lift (toast_error
               (or_default (Some (message error))
                           "Failed to delete product"))).

Definition handleUpdateProduct (data : ProductFormData.t) : M State unit :=
  e <- lift (gets editingProduct) ;;
  match e with
  | Some editing => mutate updateProductMutation (Product.id editing, data)
  | None => ret tt
  end.

(** The values handed to [reset] belong to the form library; the page
    state records the reset only. *)
Definition handleEditProduct (product : Product.t) : M State unit :=
  lift (setEditingProduct (Some product) ;; reset).

Definition handleDeleteProduct (id : Z) : M State unit :=
  if confirm "Are you sure you want to delete this product?"
  then mutate deleteProductMutation id
  else ret tt.

(** [open] of the product form dialog:
    [showProductForm || !!editingProduct]. *)
Definition productDialogOpen (s : State) : bool :=
  showProductForm (page s)
  || match editingProduct (page s) with Some _ => true | None => false end.

(** [onClose] of the dialog and [onClick] of its Cancel button. *)
Definition closeProductDialog : M State unit :=
  lift (setShowProductForm false ;; setEditingProduct None ;; reset).

(** [onClick] of the "Add Product" button. *)
Definition clickAddProduct : M State unit :=
  lift (setShowProductForm true).

(** [onSubmit] of the product form:
    [handleSubmit(editingProduct ? handleUpdateProduct :
    handleCreateProduct)] called with valid form data. *)
Definition submitProductForm (data : ProductFormData.t) : M State unit :=
  e <- lift (gets editingProduct) ;;
  match e with
  | Some _ => handleUpdateProduct data
  | None => lift (handleCreateProduct user productsApi data)
  end.

End Page.

End Catalog.

(** ** AdminDashboard.tsx: user tables and the user form *)

Module UserManagement.
Import Backend.
Import AdminDashboard.

(** [const bakerUsers = users.filter(u => u.role === 'baker')]; its
    length is the figure shown as "Active Bakers". *)
Definition bakerUsers (users : list User.t) : list User.t :=
  filter (fun u => Catalog.eqb_role (User.role u) Role.baker) users.

Inductive RowButton :=
| ViewButton
| EditButton
| DeactivateButton
| ActivateButton.

(** Actions of a row of the Bakers tab:
    [baker.is_active ? <Deactivate/> : <Activate/>] after Edit. *)
Definition bakerRowButtons (baker : User.t) : list RowButton :=
  EditButton
  :: (if User.is_active baker then [DeactivateButton]
      else [ActivateButton]).

(** Actions of a row of the All Users tab.  The rows are rendered by
    [users.map((user) => ...)]: inside, [user] is the row, also in
    [user.is_active && user.id !== user?.id]. *)
Definition userRowButtons (user : option User.t) (row : User.t)
  : list RowButton :=
  (fun user : User.t =>
     ViewButton
     :: (if negb (User.is_active user) then [ActivateButton] else [])
     ++ (if User.is_active user
            && negb (User.id user =? User.id user)
         then [DeactivateButton] else []))
    row.

(** State of the [UserForm] component. *)
Module FormData.
Record t := mk {
  full_name : string;
  email : string;
  username : string;
  phone : string;
  address : string;
  role : Role.t;
  is_active : bool
}.
End FormData.

(** Initial form data: [user?.full_name || ''], ..., [user?.role ||
    'baker'], [user?.is_active ?? true]. *)
Definition initialFormData (user : option User.t) : FormData.t :=
  FormData.mk
    (or_default (option_map User.full_name user) "")
    (or_default (option_map User.email user) "")
    (or_default (option_map User.username user) "")
    (or_default (match user with Some u => User.phone u | None => None end)
                "")
    (or_default
       (match user with Some u => User.address u | None => None end) "")
    (match user with Some u => User.role u | None => Role.baker end)
    (match user with Some u => User.is_active u | None => true end).

(** The inputs of the form: five text fields and the role select. *)
Inductive Change :=
| FullName (value : string)
| Email (value : string)
| Username (value : string)
| Phone (value : string)
| Address (value : string)
| PickRole (value : Role.t).

(** [handleChange(field)(event)]: [{ ...prev, [field]:
    event.target.value }] for the field of the input. *)
Definition handleChange (c : Change) (prev : FormData.t) : FormData.t :=
  match c with
  | FullName v =>
      FormData.mk v (FormData.email prev) (FormData.username prev)
        (FormData.phone prev) (FormData.address prev) (FormData.role prev)
        (FormData.is_active prev)
  | Email v =>
      FormData.mk (FormData.full_name prev) v (FormData.username prev)
        (FormData.phone prev) (FormData.address prev) (FormData.role prev)
        (FormData.is_active prev)
  | Username v =>
      FormData.mk (FormData.full_name prev) (FormData.email prev) v
        (FormData.phone prev) (FormData.address prev) (FormData.role prev)
        (FormData.is_active prev)
  | Phone v =>
      FormData.mk (FormData.full_name prev) (FormData.email prev)
        (FormData.username prev) v (FormData.address prev)
        (FormData.role prev) (FormData.is_active prev)
  | Address v =>
      FormData.mk (FormData.full_name prev) (FormData.email prev)
        (FormData.username prev) (FormData.phone prev) v
        (FormData.role prev) (FormData.is_active prev)
  | PickRole v =>
      FormData.mk (FormData.full_name prev) (FormData.email prev)
        (FormData.username prev) (FormData.phone prev)
        (FormData.address prev) v (FormData.is_active prev)
  end.

(** The form data after the user has made the changes in order. *)
Definition edited (user : option User.t) (changes : list Change)
  : FormData.t :=
  fold_left (fun prev c => handleChange c prev) changes
            (initialFormData user).

(** The form data as the [Partial<User>] handed to [onSubmit]. *)
Definition userData (formData : FormData.t) : PartialUser.t :=
  PartialUser.mk
    (Some (FormData.full_name formData))
    (Some (FormData.email formData))
    (Some (FormData.username formData))
    (Some (FormData.role formData))
    (Some (Some (FormData.phone formData)))
    (Some (Some (FormData.address formData)))
    (Some (FormData.is_active formData)).

(** [onClick] of "Add Baker". *)
Definition clickAddBaker : M State unit := setUserDialogOpen true.

(** [onClose] of the user dialog and [onCancel] of the form. *)
Definition closeUserDialog : M State unit :=
  setUserDialogOpen false ;; setEditingUser None.

(** Title of the user dialog. *)
Definition userDialogTitle (s : State) : string :=
  match editingUser s with
  | Some _ => "Edit Baker"
  | None => "Add New Baker"
  end.

Definition handleEditUser (user : User.t) : M State unit :=
  setEditingUser (Some user) ;; setUserDialogOpen true.

Section Page.

Variable failure : Request -> option Error.

Definition handleUpdateUser (userData : PartialUser.t) : M State unit :=
  e <- gets editingUser ;;
  match e with
  | Some editing =>
      mutateAsync (updateUserMutation failure)
                  (User.id editing, userData) ;;
      ret tt
  | None => ret tt
  end.

(** [handleSubmit] of the form: [onSubmit(formData)]. *)
Definition handleSubmit (formData : FormData.t) : M State unit :=
  handleUpdateUser (userData formData).

End Page.

End UserManagement.

(** ** ProductsPage.tsx: the filter controls *)

Module Filters.

(** A JavaScript [number] as the filter controls can produce it: an
    integer or [NaN]. *)
Inductive number :=
| NaN
| Int (n : Z).

(** [Number(s)] for the empty string and for strings of decimal digits,
    the values the selects hand over; a string with any other character
    reads as [NaN] here, other numeric spellings (sign, fraction,
    exponent, blanks) not being modelled. *)
Definition Number (s : string) : number :=
  match s with
  | EmptyString => Int 0
  | _ =>
      match NilEmpty.uint_of_string s with
      | Some d => Int (Z.of_uint d)
      | None => NaN
      end
  end.

(** [String(n)], as a template literal prints a number. *)
Definition String_ (n : number) : string :=
  match n with
  | NaN => "NaN"
  | Int z => if z <? 0 then "-" ++ digits (- z) else digits z
  end.

(** [n || ''] inside a template literal, for [n] a number or
    [undefined]: [undefined], [NaN] and 0 are falsy. *)
Definition number_or_empty (n : option number) : string :=
  match n with
  | None | Some NaN => ""
  | Some (Int z) => if z =? 0 then "" else String_ (Int z)
  end.

(** [s.split(c)] for a separator of one character. *)
Fixpoint split (c : ascii) (s : string) : list string :=
  match s with
  | EmptyString => [""]
  | String a rest =>
      if Ascii.eqb a c then "" :: split c rest
      else
        match split c rest with
        | head :: tail => String a head :: tail
        | [] => [String a ""]
        end
  end.

(** [s ? f(s) : undefined] for [s] a string or [undefined]. *)
Definition when_truthy {A} (s : option string) (f : string -> A)
  : option A :=
  match s with
  | None => None
  | Some v => if String.eqb v "" then None else Some (f v)
  end.

(** Modelled from the spec: the [ProductFilters] type of [../types]:
    every field is optional. *)
Record ProductFilters := mk {
  search : option string;
  category_id : option number;
  min_price : option number;
  max_price : option number;
  in_stock : option bool
}.

(** [useState<ProductFilters>({})] *)
Definition initial : ProductFilters := mk None None None None None.

(** [onChange] of the search field:
    [setFilters({ ...filters, search: e.target.value })]. *)
Definition onSearchChange (value : string) (filters : ProductFilters)
  : ProductFilters :=
  mk (Some value) (category_id filters) (min_price filters)
     (max_price filters) (in_stock filters).

(** [onChange] of the price select: [const [min, max] =
    e.target.value.split('-')], then [min ? Number(min) : undefined] and
    the same for [max]. *)
Definition onPriceChange (value : string) (filters : ProductFilters)
  : ProductFilters :=
  let parts := split "-" value in
  let min := nth_error parts 0 in
  let max := nth_error parts 1 in
  mk (search filters) (category_id filters)
     (when_truthy min Number) (when_truthy max Number)
     (in_stock filters).

(** [value] of the price select:
    [`${filters.min_price || ''}-${filters.max_price || ''}`]. *)
Definition priceValue (filters : ProductFilters) : string :=
  number_or_empty (min_price filters) ++ "-"
  ++ number_or_empty (max_price filters).

(** [onChange] of the availability select:
    [e.target.value ? e.target.value === 'true' : undefined]. *)
Definition onStockChange (value : string) (filters : ProductFilters)
  : ProductFilters :=
  mk (search filters) (category_id filters) (min_price filters)
     (max_price filters)
     (when_truthy (Some value) (fun v => String.eqb v "true")).

(** [value] of the availability select:
    [filters.in_stock?.toString() || '']. *)
Definition stockValue (filters : ProductFilters) : string :=
  or_default
    (option_map (fun b : bool => if b then "true" else "false")
                (in_stock filters))
    "".

End Filters.

(** ** The cart arithmetic on JavaScript numbers *)

(** A JavaScript [number] is an IEEE 754 binary64 value.  This module has
    the handlers and the order summary with the quantity of a line as a
    binary64 number, so that [NaN], rounding and the integers from 2^53
    on behave as on the page.  Only the cart is followed here; toasts and
    the rest of the page state are as in [ProductsPage]. *)
Module Float64.

(** The binary64 number nearest to an integer (ties to even), which is
    the integer itself up to 2^53 in magnitude. *)
Definition number_of_Z (z : Z) : float :=
  SF2Prim (binary_normalize prec emax z 0 false).

(** The binary64 number a decimal price is received as: the double
    nearest to the quotient, for a numerator and a denominator below
    2^53. *)
Definition number_of_Q (q : Q) : float :=
  (number_of_Z (Qnum q) / number_of_Z (Z.pos (Qden q)))%float.

(** The exact value of a finite binary64 number; [None] for [NaN] and
    the infinities. *)
Definition to_Q (x : float) : option Q :=
  match Prim2SF x with
  | S754_zero _ => Some 0%Q
  | S754_finite s m e =>
      let v := if e >=? 0 then inject_Z (Z.pos m * 2 ^ e)
               else (Z.pos m # Z.to_pos (2 ^ (- e)))%Q in
      Some (if s then (- v)%Q else v)
  | S754_infinity _ | S754_nan => None
  end.

(** The exact value of a binary64 number that is an integer. *)
Definition to_Z (x : float) : option Z :=
  match to_Q x with
  | Some q =>
      let r := Qred q in
      if Z.pos (Qden r) =? 1 then Some (Qnum r) else None
  | None => None
  end.

(** [x.toFixed(2)]: ['NaN'] and the infinities are printed by name;
    a finite [x] is rounded on its exact value by [JS.toFixed2].  From a
    magnitude of 1e21 on JavaScript prints the exponent form of [x],
    which is not modelled: the result is [None]. *)
Definition toFixed2 (x : float) : option string :=
  match Prim2SF x with
  | S754_nan => Some "NaN"
  | S754_infinity s => Some (if s then "-Infinity" else "Infinity")
  | S754_zero _ | S754_finite _ _ _ =>
      match to_Q x with
      | Some q =>
          if Qle_bool (inject_Z (10 ^ 21)) (Qabs q) then None
          else Some (JS.toFixed2 q)
      | None => None
      end
  end.

(** A line of the cart: [{ product: Product; quantity: number }]. *)
Record Line := mk { product : Product.t; quantity : float }.

Definition Cart := list Line.

(** [item.product.price] as the number it is on the page. *)
Definition price (item : Line) : float :=
  number_of_Q (Product.price (product item)).

(** A cart of [ProductsPage] with its integer quantities as numbers. *)
Definition of_cart (c : ProductsPage.Cart) : Cart :=
  map (fun item =>
         mk (ProductsPage.CartItem.product item)
            (number_of_Z (ProductsPage.CartItem.quantity item))) c.

(** The state update of [addToCartMutation]. *)
Definition addToCart (p : Product.t) (prevCart : Cart) : Cart :=
  let existingItem :=
    find (fun item => Product.id (product item) =? Product.id p)
         prevCart in
  match existingItem with
  | Some _ =>
      map (fun item =>
             if Product.id (product item) =? Product.id p
             then mk (product item) (quantity item + 1)%float
             else item)
          prevCart
  | None => prevCart ++ [mk p 1%float]
  end.

(** Cart after [handleAddToCart(p)]. *)
Definition handleAddToCart (p : Product.t) (c : Cart) : Cart :=
  if Product.stock_quantity p >? 0 then addToCart p c else c.

(** Cart after [handleRemoveFromCart(productId)]. *)
Definition handleRemoveFromCart (productId : Z) (c : Cart) : Cart :=
  filter (fun item => negb (Product.id (product item) =? productId)) c.

(** Cart after [handleUpdateCartQuantity(productId, newQuantity)]; the
    quantity field passes [parseInt(e.target.value)], which is [NaN]
    when the field is cleared. *)
Definition handleUpdateCartQuantity
           (productId : Z) (newQuantity : float) (c : Cart) : Cart :=
  if (newQuantity <? 1)%float
  then handleRemoveFromCart productId c
  else
    map (fun item =>
           if Product.id (product item) =? productId
           then mk (product item) newQuantity
           else item) c.

(** [cart.reduce((total, item) => total + item.product.price *
    item.quantity, 0)] *)
Definition calculateCartTotal (c : Cart) : float :=
  fold_left (fun total item => (total + price item * quantity item)%float)
            c 0%float.

(** The number the page writes as [0.12]: the binary64 number nearest
    to 12/100. *)
Definition rate : float := 0x1.eb851eb851eb8p-4%float.

(** Text of the four rows of the order summary, after the peso sign. *)
Record OrderSummary := mkSummary {
  subtotalText : option string;
  deliveryFeeText : string;
  taxText : option string;
  totalText : option string
}.

(** The summary is rendered only in the non-empty branch of
    [cart.length === 0 ? <Alert/> : ...]; its rows are
    [calculateCartTotal().toFixed(2)], the text [50.00],
    [(calculateCartTotal() * 0.12).toFixed(2)] and
    [(calculateCartTotal() + 50 + calculateCartTotal() *
    0.12).toFixed(2)]. *)
Definition orderSummary (c : Cart) : option OrderSummary :=
  if Z.of_nat (List.length c) =? 0 then None
  else
    Some (mkSummary
            (toFixed2 (calculateCartTotal c))
            "50.00"
            (toFixed2 (calculateCartTotal c * rate)%float)
            (toFixed2 (calculateCartTotal c + 50
                       + calculateCartTotal c * rate)%float)).

End Float64.

(** * Properties *)

Import ProductsPage.

(** ** Running handlers *)

Ltac run :=
  cbv [exec handleAddToCart handleRemoveFromCart handleUpdateCartQuantity
       handleCheckout handleCreateProduct clickAddToCart clickPlus
       clickMinus addToCartMutation checkoutMutation createProductMutation
       mutate mutateAsync mutationFn onSuccess onError bind ret modify gets
       setCart setShowCart setShowProductForm toast toast_success
       toast_error invalidateQueries send resetForm reset resetCheckout
       snd fst].

(** ** Lists *)

Section ListFacts.
Context {A : Type}.

Lemma map_fixed (f : A -> A) (l : list A) :
  (forall x, In x l -> f x = x) -> map f l = l.
Proof.
  induction l as [|a l IH]; intros H; simpl.
  - reflexivity.
  - rewrite (H a (or_introl eq_refl)), IH; auto.
    intros x Hx. apply H. now right.
Qed.

Lemma filter_all (f : A -> bool) (l : list A) :
  (forall x, In x l -> f x = true) -> filter f l = l.
Proof.
  induction l as [|a l IH]; intros H; simpl.
  - reflexivity.
  - rewrite (H a (or_introl eq_refl)), IH; auto.
    intros x Hx. apply H. now right.
Qed.

Lemma find_absent (f : A -> bool) (l : list A) :
  (forall x, In x l -> f x = false) -> find f l = None.
Proof.
  induction l as [|a l IH]; intros H; simpl.
  - reflexivity.
  - rewrite (H a (or_introl eq_refl)). apply IH.
    intros x Hx. apply H. now right.
Qed.

Lemma find_present (f : A -> bool) (l : list A) (x : A) :
  In x l -> f x = true -> exists y, find f l = Some y.
Proof.
  intros Hin Hf. destruct (find f l) as [y|] eqn:E.
  - now exists y.
  - rewrite (find_none f l E x Hin) in Hf. discriminate.
Qed.

Lemma find_map_stable (f : A -> bool) (g : A -> A) (l : list A) :
  (forall x, f (g x) = f x) ->
  find f (map g l) = option_map g (find f l).
Proof.
  intros Hg. induction l as [|a l IH]; simpl.
  - reflexivity.
  - rewrite Hg. destruct (f a); simpl; auto.
Qed.

End ListFacts.

(** ** Adding to the cart *)

Lemma has_line_find (p : Product.t) (c : Cart) :
  Spec.has_line (Product.id p) c ->
  exists y,
    find (fun item => Product.id (CartItem.product item) =? Product.id p) c
    = Some y.
Proof.
  intros (item & Hin & Hid).
  apply (find_present _ c item Hin). now apply Z.eqb_eq.
Qed.

Lemma no_line_find (p : Product.t) (c : Cart) :
  ~ Spec.has_line (Product.id p) c ->
  find (fun item => Product.id (CartItem.product item) =? Product.id p) c
  = None.
Proof.
  intros Hno. apply find_absent. intros x Hx.
  apply Z.eqb_neq. intros E. apply Hno. now exists x.
Qed.

(** C1, as the code has it: [handleAddToCart] rejects a product whose
    stock is zero or less, leaving the cart as it was and showing
    'Product is out of stock'; a product that is unavailable or has no
    stock cannot reach the handler, because its "Add to Cart" button is
    disabled, so a click changes nothing at all. *)
Theorem add_to_cart_gates (p : Product.t) (st : State) :
  (Product.stock_quantity p <= 0 ->
   cart (exec (handleAddToCart p) st) = cart st
   /\ toasts (exec (handleAddToCart p) st)
      = toasts st ++ [ToastError "Product is out of stock"])
  /\ (Product.stock_quantity p = 0 \/ Product.is_available p = false ->
      exec (clickAddToCart p) st = st).
Proof.
  split.
  - intros Hstock. run.
    destruct (Z.gtb_spec (Product.stock_quantity p) 0) as [H|H]; [lia|].
    split; reflexivity.
  - intros Hgate. run. unfold addToCartDisabled.
    destruct Hgate as [H|H]; rewrite H; simpl.
    + rewrite orb_true_r. reflexivity.
    + reflexivity.
Qed.

Lemma add_to_cart_gates_witness :
  (cart (exec (handleAddToCart Samples.sold_out)
              (Samples.page Samples.scenario_cart))
   = Samples.scenario_cart
   /\ toasts (exec (handleAddToCart Samples.sold_out)
                   (Samples.page Samples.scenario_cart))
      = [ToastError "Product is out of stock"])
  /\ exec (clickAddToCart Samples.hidden_loaf)
          (Samples.page Samples.scenario_cart)
     = Samples.page Samples.scenario_cart.
Proof.
  split.
  - apply (proj1 (add_to_cart_gates Samples.sold_out
                    (Samples.page Samples.scenario_cart))).
    simpl. lia.
  - apply (proj2 (add_to_cart_gates Samples.hidden_loaf
                    (Samples.page Samples.scenario_cart))).
    right. reflexivity.
Defined.

(** C1 as stated fails on the handler: a product that is unavailable but
    in stock is added when [handleAddToCart] is invoked with it. *)
Lemma add_to_cart_unavailable_counterexample :
  Product.is_available Samples.hidden_loaf = false
  /\ cart (exec (handleAddToCart Samples.hidden_loaf) (Samples.page []))
     = [CartItem.mk Samples.hidden_loaf 1]
  /\ cart (exec (handleAddToCart Samples.hidden_loaf) (Samples.page []))
     <> cart (Samples.page []).
Proof. repeat split. discriminate. Qed.

(** On binary64 quantities, [handleAddToCart] for a product in stock
    rewrites the lines of the product, position by position, to
    [quantity + 1], keeps the other lines and their number, and appends
    a line with quantity 1 when the product has none. *)
Lemma add_to_cart_binary64 (p : Product.t) (c : Float64.Cart) :
  Product.stock_quantity p > 0 ->
  ((exists line,
      In line c /\ Product.id (Float64.product line) = Product.id p) ->
   Float64.handleAddToCart p c
   = map (fun line =>
            if Product.id (Float64.product line) =? Product.id p
            then Float64.mk (Float64.product line)
                            (Float64.quantity line + 1)%float
            else line) c)
  /\ ((forall line,
         In line c -> Product.id (Float64.product line) <> Product.id p) ->
      Float64.handleAddToCart p c = c ++ [Float64.mk p 1%float]).
Proof.
  intros Hstock.
  assert (Hgt : (Product.stock_quantity p >? 0) = true)
    by (apply Z.gtb_lt; lia).
  unfold Float64.handleAddToCart, Float64.addToCart. rewrite Hgt. split.
  - intros (line & Hin & Hid).
    destruct (find_present
                (fun item =>
                   Product.id (Float64.product item) =? Product.id p)
                c line Hin) as [y ->]; [now apply Z.eqb_eq|reflexivity].
  - intros Hno. rewrite find_absent; [reflexivity|].
    intros x Hx. apply Z.eqb_neq. now apply Hno.
Qed.

(** C7, as the code has it: for a product in stock, [handleAddToCart] on
    a cart that has a line for it adds 1 to the quantity of that line by
    a binary64 addition, keeps every other line and adds none; for a
    quantity that is an integer below 2^53 in magnitude the result is
    that integer plus 1.  On a cart without such a line it appends a
    line with quantity 1; two calls on the empty cart leave exactly one
    line, with quantity 2. *)
Theorem add_to_cart_merges (p : Product.t) (st : State) :
  Product.stock_quantity p > 0 ->
  (Spec.has_line (Product.id p) (cart st) ->
   (forall item,
      In item (cart st) ->
      Product.id (CartItem.product item) = Product.id p ->
      Spec.safe_integer (CartItem.quantity item)) ->
   List.length (cart (exec (handleAddToCart p) st))
   = List.length (cart st)
   /\ forall i item,
        nth_error (cart st) i = Some item ->
        nth_error (cart (exec (handleAddToCart p) st)) i
        = Some (if Product.id (CartItem.product item) =? Product.id p
                then CartItem.mk (CartItem.product item)
                                 (CartItem.quantity item + 1)
                else item))
  /\ (forall (c : Float64.Cart) i line,
        nth_error c i = Some line ->
        Product.id (Float64.product line) = Product.id p ->
        List.length (Float64.handleAddToCart p c) = List.length c
        /\ nth_error (Float64.handleAddToCart p c) i
           = Some (Float64.mk (Float64.product line)
                              (Float64.quantity line + 1)%float))
  /\ (~ Spec.has_line (Product.id p) (cart st) ->
      cart (exec (handleAddToCart p) st)
      = cart st ++ [CartItem.mk p 1])
  /\ (cart st = [] ->
      cart (exec (handleAddToCart p) (exec (handleAddToCart p) st))
      = [CartItem.mk p 2])
  /\ Float64.handleAddToCart p (Float64.handleAddToCart p [])
     = [Float64.mk p 2%float].
Proof.
  intros Hstock.
  assert (Hgt : (Product.stock_quantity p >? 0) = true)
    by (apply Z.gtb_lt; lia).
  split; [|split; [|split; [|split]]].
  - intros Hline _. split.
    + run. rewrite Hgt. simpl.
      destruct (has_line_find p (cart st) Hline) as [y ->].
      apply length_map.
    + intros i item Hi. run. rewrite Hgt. simpl.
      destruct (has_line_find p (cart st) Hline) as [y ->].
      rewrite nth_error_map, Hi. reflexivity.
  - intros c i line Hi Hid.
    rewrite (proj1 (add_to_cart_binary64 p c Hstock)).
    + split; [apply length_map|].
      rewrite nth_error_map, Hi. simpl.
      apply Z.eqb_eq in Hid. now rewrite Hid.
    + exists line. split; [|assumption]. eapply nth_error_In; eauto.
  - intros Hno. run. rewrite Hgt. simpl.
    rewrite (no_line_find p (cart st) Hno). reflexivity.
  - intros Hempty. run. rewrite Hgt. simpl. rewrite Hempty. simpl.
    rewrite Z.eqb_refl. reflexivity.
  - unfold Float64.handleAddToCart, Float64.addToCart. rewrite Hgt.
    simpl. rewrite Z.eqb_refl. reflexivity.
Qed.

Lemma add_to_cart_merges_witness :
  nth_error
    (cart (exec (handleAddToCart Samples.pandesal)
                (Samples.page Samples.scenario_cart))) 0
  = Some (CartItem.mk Samples.pandesal 4)
  /\ cart (exec (handleAddToCart Samples.pandesal)
                (exec (handleAddToCart Samples.pandesal)
                      (Samples.page [])))
     = [CartItem.mk Samples.pandesal 2].
Proof.
  destruct (add_to_cart_merges Samples.pandesal
              (Samples.page Samples.scenario_cart) ltac:(reflexivity))
    as (Hmerge & _).
  destruct (add_to_cart_merges Samples.pandesal (Samples.page [])
              ltac:(reflexivity))
    as (_ & _ & _ & Htwice & _).
  split.
  - destruct Hmerge as [_ Hnth].
    + exists (CartItem.mk Samples.pandesal 3). simpl. auto.
    + intros item Hin Hid. simpl in Hin.
      destruct Hin as [<-|[<-|[]]]; [|discriminate Hid].
      unfold Spec.safe_integer. simpl. lia.
    + apply (Hnth 0%nat (CartItem.mk Samples.pandesal 3) eq_refl).
  - apply Htwice. reflexivity.
Defined.

(** C7 as stated fails at 2^53: the line holds the number 2^53, the
    product is in stock, and after [handleAddToCart] the line still
    holds 2^53, not 2^53 + 1. *)
Lemma add_to_cart_at_2_53_counterexample :
  let line := Float64.mk Samples.pandesal 9007199254740992%float in
  Product.stock_quantity Samples.pandesal > 0
  /\ Float64.to_Z (Float64.quantity line) = Some (2 ^ 53)
  /\ Float64.handleAddToCart Samples.pandesal [line] = [line]
  /\ option_map (fun l => Float64.to_Z (Float64.quantity l))
       (nth_error (Float64.handleAddToCart Samples.pandesal [line]) 0)
     <> Some (Some (2 ^ 53 + 1)).
Proof.
  cbv zeta. split; [reflexivity|]. split; [reflexivity|].
  split; [reflexivity|]. vm_compute. discriminate.
Qed.

(** ** Changing and removing lines *)

Lemma absent_ids (productId : Z) (c : Cart) :
  ~ Spec.has_line productId c ->
  forall item, In item c ->
    (Product.id (CartItem.product item) =? productId) = false.
Proof.
  intros Hno item Hin. apply Z.eqb_neq. intros E. apply Hno.
  now exists item.
Qed.

(** C10: [handleUpdateCartQuantity] for an identifier that has no line
    leaves the cart as it is, whatever the new quantity: with a quantity
    of 1 or more the whole page state is untouched, below 1 only the
    'Removed from cart' toast is added. *)
Theorem update_absent_is_noop (productId newQuantity : Z) (st : State) :
  ~ Spec.has_line productId (cart st) ->
  cart (exec (handleUpdateCartQuantity productId newQuantity) st) = cart st
  /\ (newQuantity >= 1 ->
      exec (handleUpdateCartQuantity productId newQuantity) st = st)
  /\ (newQuantity < 1 ->
      toasts (exec (handleUpdateCartQuantity productId newQuantity) st)
      = toasts st ++ [ToastSuccess "Removed from cart"]).
Proof.
  intros Hno. pose proof (absent_ids productId (cart st) Hno) as Hids.
  assert (Hmap :
    map (fun item =>
           if Product.id (CartItem.product item) =? productId
           then CartItem.mk (CartItem.product item) newQuantity
           else item) (cart st) = cart st).
  { apply map_fixed. intros x Hx. now rewrite (Hids x Hx). }
  assert (Hfilter :
    filter (fun item =>
              negb (Product.id (CartItem.product item) =? productId))
           (cart st) = cart st).
  { apply filter_all. intros x Hx. now rewrite (Hids x Hx). }
  repeat split.
  - run. destruct (newQuantity <? 1); simpl; assumption.
  - intros Hge. run.
    destruct (Z.ltb_spec newQuantity 1) as [H|H]; [lia|].
    simpl. rewrite Hmap. now destruct st.
  - intros Hlt. run.
    destruct (Z.ltb_spec newQuantity 1) as [H|H]; [|lia].
    reflexivity.
Qed.

Lemma update_absent_is_noop_witness :
  cart (exec (handleUpdateCartQuantity 9 4)
             (Samples.page Samples.scenario_cart))
  = Samples.scenario_cart.
Proof.
  apply (update_absent_is_noop 9 4 (Samples.page Samples.scenario_cart)).
  intros (item & Hin & Hid). simpl in Hin.
  destruct Hin as [<-|[<-|[]]]; discriminate Hid.
Defined.

(** With a new quantity of 1 or more the handler rewrites, position by
    position, exactly the lines of [productId], to the quantity it was
    given. *)
Lemma update_quantity_sets (productId newQuantity : Z) (st : State) :
  newQuantity >= 1 ->
  cart (exec (handleUpdateCartQuantity productId newQuantity) st)
  = map (fun item =>
           if Product.id (CartItem.product item) =? productId
           then CartItem.mk (CartItem.product item) newQuantity
           else item) (cart st).
Proof.
  intros Hge. run.
  destruct (Z.ltb_spec newQuantity 1) as [H|H]; [lia|reflexivity].
Qed.

Lemma update_quantity_removes (productId newQuantity : Z) (st : State) :
  newQuantity < 1 ->
  cart (exec (handleUpdateCartQuantity productId newQuantity) st)
  = cart (exec (handleRemoveFromCart productId) st).
Proof.
  intros Hlt. run.
  destruct (Z.ltb_spec newQuantity 1) as [H|H]; [reflexivity|lia].
Qed.

Lemma remove_from_cart_lines (productId : Z) (st : State) (item : CartItem.t) :
  In item (cart (exec (handleRemoveFromCart productId) st))
  <-> In item (cart st)
      /\ Product.id (CartItem.product item) <> productId.
Proof.
  run. simpl. rewrite filter_In, negb_true_iff, Z.eqb_neq. reflexivity.
Qed.

(** Where the new quantity is in range the handler agrees with
    clamping: for an identifier that has a line in the cart, a new
    quantity below 1 removes every line of that identifier
    and keeps the others; a new quantity from 1 up to the stock of the
    line's product replaces the quantity of the line, which is then the
    new quantity clamped to [[1, stock_quantity]], and leaves the other
    lines and the number of lines as they were. *)
Theorem update_quantity_in_range (productId newQuantity : Z) (st : State) :
  Spec.has_line productId (cart st) ->
  let cart' :=
    cart (exec (handleUpdateCartQuantity productId newQuantity) st) in
  (newQuantity < 1 ->
   ~ Spec.has_line productId cart'
   /\ forall item,
        In item cart'
        <-> In item (cart st)
            /\ Product.id (CartItem.product item) <> productId)
  /\ (newQuantity >= 1 ->
      List.length cart' = List.length (cart st)
      /\ forall i item,
           nth_error (cart st) i = Some item ->
           (Product.id (CartItem.product item) = productId ->
            newQuantity <= Product.stock_quantity (CartItem.product item) ->
            nth_error cart' i
            = Some (CartItem.mk (CartItem.product item)
                      (Spec.clamp 1
                         (Product.stock_quantity (CartItem.product item))
                         newQuantity)))
           /\ (Product.id (CartItem.product item) <> productId ->
               nth_error cart' i = Some item)).
Proof.
  intros _ cart'. subst cart'. split.
  - intros Hlt. rewrite (update_quantity_removes _ _ _ Hlt). split.
    + intros (item & Hin & Hid).
      apply remove_from_cart_lines in Hin. tauto.
    + intros item. apply remove_from_cart_lines.
  - intros Hge. rewrite (update_quantity_sets _ _ _ Hge). split.
    + apply length_map.
    + intros i item Hi. rewrite nth_error_map, Hi. simpl. split.
      * intros Hid Hstock. apply Z.eqb_eq in Hid. rewrite Hid.
        unfold Spec.clamp. do 2 f_equal. lia.
      * intros Hid. apply Z.eqb_neq in Hid. now rewrite Hid.
Qed.

Lemma update_quantity_in_range_witness :
  nth_error
    (cart (exec (handleUpdateCartQuantity 2 5)
                (Samples.page Samples.scenario_cart))) 1
  = Some (CartItem.mk Samples.ensaymada 5).
Proof.
  pose proof (update_quantity_in_range 2 5
                (Samples.page Samples.scenario_cart)) as H.
  simpl in H.
  assert (Hline : Spec.has_line 2 Samples.scenario_cart).
  { exists (CartItem.mk Samples.ensaymada 2). simpl. auto. }
  destruct (H Hline) as [_ Hset].
  destruct Hset as [_ Hnth]; [lia|].
  destruct (Hnth 1%nat (CartItem.mk Samples.ensaymada 2) eq_refl)
    as [Hsame _].
  apply Hsame; simpl; [reflexivity|lia].
Defined.

(** C2 as stated fails above the stock: asking for 10 pieces of a
    product with a stock of 8 stores 10, where clamping to [[1, 8]]
    gives 8. *)
Lemma update_quantity_no_clamp_counterexample :
  Product.stock_quantity Samples.ensaymada = 8
  /\ cart (exec (handleUpdateCartQuantity 2 10)
                (Samples.page Samples.scenario_cart))
     = [CartItem.mk Samples.pandesal 3; CartItem.mk Samples.ensaymada 10]
  /\ Spec.clamp 1 8 10 = 8
  /\ cart (exec (handleUpdateCartQuantity 2 10)
                (Samples.page Samples.scenario_cart))
     <> [CartItem.mk Samples.pandesal 3;
         CartItem.mk Samples.ensaymada (Spec.clamp 1 8 10)].
Proof. repeat split. discriminate. Qed.

(** ** The quantity bounds of a line *)

(** No handler lets a quantity fall below 1. *)
Lemma add_to_cart_keeps_positive (p : Product.t) (st : State) :
  Spec.cart_positive (cart st) ->
  Spec.cart_positive (cart (exec (handleAddToCart p) st)).
Proof.
  unfold Spec.cart_positive. intros Hpos. run.
  destruct (Product.stock_quantity p >? 0); simpl; [|assumption].
  destruct (find _ (cart st)).
  - apply Forall_map. eapply Forall_impl; [|exact Hpos].
    intros item Hitem. simpl in *.
    destruct (Product.id (CartItem.product item) =? Product.id p);
      simpl; lia.
  - apply Forall_app. split; [assumption|].
    constructor; [simpl; lia|constructor].
Qed.

Lemma update_quantity_keeps_positive
      (productId newQuantity : Z) (st : State) :
  Spec.cart_positive (cart st) ->
  Spec.cart_positive
    (cart (exec (handleUpdateCartQuantity productId newQuantity) st)).
Proof.
  unfold Spec.cart_positive. intros Hpos. run.
  destruct (Z.ltb_spec newQuantity 1) as [H|H]; simpl.
  - rewrite Forall_forall in *. intros item Hin.
    apply filter_In in Hin. now apply Hpos.
  - apply Forall_map. eapply Forall_impl; [|exact Hpos].
    intros item Hitem. simpl in *.
    destruct (Product.id (CartItem.product item) =? productId);
      simpl; lia.
Qed.

(** Removing a line keeps both bounds on the lines that stay. *)
Lemma remove_from_cart_keeps_bounds (productId : Z) (st : State) :
  Spec.cart_ok (cart st) ->
  Spec.cart_ok (cart (exec (handleRemoveFromCart productId) st)).
Proof.
  unfold Spec.cart_ok. intros Hok. rewrite Forall_forall in *.
  intros item Hin. apply remove_from_cart_lines in Hin.
  now apply Hok.
Qed.

(** X27: the "+" button keeps both bounds: it is disabled once the
    quantity has reached the stock. *)
Lemma click_plus_keeps_bounds (item : CartItem.t) (st : State) :
  Spec.cart_ok (cart st) ->
  In item (cart st) ->
  NoDup (map (fun l => Product.id (CartItem.product l)) (cart st)) ->
  Spec.cart_ok (cart (exec (clickPlus item) st)).
Proof.
  unfold Spec.cart_ok. intros Hok Hin Hnodup. run. unfold plusDisabled.
  destruct (Z.geb_spec (CartItem.quantity item)
              (Product.stock_quantity (CartItem.product item))) as [H|H];
    simpl; [assumption|].
  assert (Hitem : Spec.line_ok item)
    by (rewrite Forall_forall in Hok; now apply Hok).
  destruct (Z.ltb_spec (CartItem.quantity item + 1) 1) as [H1|H1]; simpl.
  { unfold Spec.line_ok in Hitem. lia. }
  apply Forall_map. rewrite Forall_forall in *. intros l Hl.
  destruct (Z.eqb_spec (Product.id (CartItem.product l))
              (Product.id (CartItem.product item))) as [E|E].
  - assert (l = item) as ->.
    { clear - Hnodup Hin Hl E. induction (cart st) as [|a c IH].
      - destruct Hin.
      - simpl in Hnodup. inversion Hnodup as [|? ? Hnotin Hrest]; subst.
        destruct Hin as [->|Hin], Hl as [->|Hl]; auto.
        + exfalso. apply Hnotin. rewrite <- E.
          now apply (in_map (fun l => Product.id (CartItem.product l))).
        + exfalso. apply Hnotin. rewrite E.
          now apply (in_map (fun l => Product.id (CartItem.product l))). }
    unfold Spec.line_ok in *. simpl. lia.
  - now apply Hok.
Qed.

(** C3 fails on [handleAddToCart]: with one piece in stock and that piece
    already in the cart, the cart satisfies the bounds, the "Add to Cart"
    button is enabled, and one more click stores a quantity of 2. *)
Lemma add_to_cart_exceeds_stock :
  let st := Samples.page [CartItem.mk Samples.last_piece 1] in
  Spec.cart_ok (cart st)
  /\ addToCartDisabled Samples.last_piece = false
  /\ cart (exec (clickAddToCart Samples.last_piece) st)
     = [CartItem.mk Samples.last_piece 2]
  /\ cart (exec (handleAddToCart Samples.last_piece) st)
     = [CartItem.mk Samples.last_piece 2]
  /\ ~ Spec.cart_ok (cart (exec (handleAddToCart Samples.last_piece) st)).
Proof.
  simpl. repeat split.
  - constructor; [unfold Spec.line_ok; simpl; lia|constructor].
  - intros Hok. inversion Hok as [|? ? Hline _]; subst.
    unfold Spec.line_ok in Hline. simpl in Hline. lia.
Qed.

(** The quantity field reaches the same state: a typed value above the
    stock is stored as it is. *)
Lemma typed_quantity_exceeds_stock :
  let st := Samples.page [CartItem.mk Samples.last_piece 1] in
  Spec.cart_ok (cart st)
  /\ ~ Spec.cart_ok (cart (exec (handleUpdateCartQuantity 5 4) st)).
Proof.
  simpl. split.
  - constructor; [unfold Spec.line_ok; simpl; lia|constructor].
  - intros Hok. inversion Hok as [|? ? Hline _]; subst.
    unfold Spec.line_ok in Hline. simpl in Hline. lia.
Qed.

(** ** Checkout *)

(** C5: submitting the checkout form with an empty cart shows 'Your cart
    is empty' and does nothing else: no request is sent to the backing
    service, and the cart and the rest of the page state stay as they
    were. *)
Theorem empty_cart_checkout_is_local
        (api : ApiService) (data : CheckoutForm.t) (st : State) :
  cart st = [] ->
  exec (handleCheckout api data) st
  = mkState (cart st) (showCart st) (editingProduct st)
            (showProductForm st)
            (toasts st ++ [ToastError "Your cart is empty"])
            (invalidated st) (requests st) (resets st)
  /\ requests (exec (handleCheckout api data) st) = requests st.
Proof.
  intros Hempty. destruct st as [c sc ep spf ts inv rq rs].
  simpl in Hempty. subst c. split; reflexivity.
Qed.

Lemma empty_cart_checkout_is_local_witness :
  requests (exec (handleCheckout Samples.accepting Samples.address)
                 (Samples.page []))
  = [].
Proof.
  apply (empty_cart_checkout_is_local Samples.accepting Samples.address
           (Samples.page [])).
  reflexivity.
Defined.

(** The two callbacks of [checkoutMutation] on their own, whatever the
    page state is when the response arrives: [onError] never touches the
    cart, [onSuccess] always empties it. *)
Lemma checkout_onError_keeps_cart
      (api : ApiService) (error : Error) (st : State) :
  cart (exec (onError (checkoutMutation api) error) st) = cart st
  /\ showCart (exec (onError (checkoutMutation api) error) st)
     = showCart st
  /\ invalidated (exec (onError (checkoutMutation api) error) st)
     = invalidated st.
Proof. repeat split. Qed.

Lemma checkout_onSuccess_clears
      (api : ApiService) (order : Order.t) (st : State) :
  cart (exec (onSuccess (checkoutMutation api) order) st) = []
  /\ showCart (exec (onSuccess (checkoutMutation api) order) st) = false
  /\ invalidated (exec (onSuccess (checkoutMutation api) order) st)
     = invalidated st ++ [["orders"]].
Proof. repeat split. Qed.

(** C4, as the code has it: submitting a non-empty cart sends one
    [createOrder] request built from the cart.  When the service accepts
    it, the cart is emptied, the cart dialog is closed, the ['orders']
    query is invalidated and the checkout form is reset.  When the
    service rejects it, the cart, the dialog and the query cache are as
    before, and an error toast shows the message of the error, or
    'Failed to place order' when that message is empty. *)
Theorem checkout_all_or_nothing
        (api : ApiService) (data : CheckoutForm.t) (st : State) :
  cart st <> [] ->
  let request := Spec.order_request data (cart st) in
  let st' := exec (handleCheckout api data) st in
  (forall order,
     createOrder api request = Resolved order ->
     st' = mkState [] false (editingProduct st) (showProductForm st)
             (toasts st ++ [ToastSuccess "Order placed successfully!"])
             (invalidated st ++ [["orders"]])
             (requests st ++ [CreateOrder request])
             (resets st ++ [CheckoutFormId]))
  /\ (forall error,
        createOrder api request = Rejected error ->
        st' = mkState (cart st) (showCart st) (editingProduct st)
                (showProductForm st)
                (toasts st
                 ++ [ToastError
                       (if String.eqb (message error) ""
                        then "Failed to place order"
                        else message error)])
                (invalidated st)
                (requests st ++ [CreateOrder request])
                (resets st)).
Proof.
  intros Hcart request st'. subst request st'.
  assert (Hlen : (Z.of_nat (List.length (cart st)) =? 0) = false).
  { destruct (cart st); [contradiction|]. reflexivity. }
  split.
  - intros order Hok. run. rewrite Hlen. simpl.
    unfold Spec.order_request in Hok. rewrite Hok. reflexivity.
  - intros error Hfail. run. rewrite Hlen. simpl.
    unfold Spec.order_request in Hfail. rewrite Hfail. reflexivity.
Qed.

Lemma checkout_all_or_nothing_witness :
  cart (exec (handleCheckout Samples.accepting Samples.address)
             (Samples.page Samples.scenario_cart)) = []
  /\ cart (exec (handleCheckout (Samples.rejecting "Insufficient stock")
                                Samples.address)
                (Samples.page Samples.scenario_cart))
     = Samples.scenario_cart.
Proof.
  split.
  - rewrite (proj1 (checkout_all_or_nothing Samples.accepting
                      Samples.address
                      (Samples.page Samples.scenario_cart)
                      ltac:(discriminate))
               (Order.mk 1) eq_refl).
    reflexivity.
  - rewrite (proj2 (checkout_all_or_nothing
                      (Samples.rejecting "Insufficient stock")
                      Samples.address
                      (Samples.page Samples.scenario_cart)
                      ltac:(discriminate))
               (mkError "Insufficient stock") eq_refl).
    reflexivity.
Defined.

(** C4 as stated fails for an error without a message: the toast shows
    the fixed text, not the message of the error. *)
Lemma checkout_empty_message_counterexample :
  let st' := exec (handleCheckout (Samples.rejecting "") Samples.address)
                  (Samples.page Samples.scenario_cart) in
  createOrder (Samples.rejecting "")
    (Spec.order_request Samples.address Samples.scenario_cart)
  = Rejected (mkError "")
  /\ toasts st' = [ToastError "Failed to place order"]
  /\ ~ In (ToastError (message (mkError ""))) (toasts st').
Proof.
  simpl. repeat split. intros [H|[]]. discriminate H.
Qed.

(** ** Product creation *)

(** C9, as the code has it: [handleCreateProduct] always sends a
    [createProduct] request, signed in or not.  Without a user the
    request carries [baker_email] 'default@baker.com'; with a user whose
    email is not empty it carries that email; a user whose email is the
    empty string gets the default address as well. *)
Theorem create_product_baker_email
        (user : option User.t) (api : ApiService)
        (data : ProductFormData.t) (st : State) :
  let sent := requests (exec (handleCreateProduct user api data) st) in
  (user = None ->
   sent = requests st
          ++ [CreateProduct (Spec.with_baker data "default@baker.com")])
  /\ (forall u, user = Some u -> User.email u <> "" ->
      sent = requests st
             ++ [CreateProduct (Spec.with_baker data (User.email u))])
  /\ (forall u, user = Some u -> User.email u = "" ->
      sent = requests st
             ++ [CreateProduct (Spec.with_baker data "default@baker.com")]).
Proof.
  intros sent. subst sent. repeat split.
  - intros ->. run. simpl.
    destruct (createProduct api _); reflexivity.
  - intros u -> Hemail. run. simpl.
    apply String.eqb_neq in Hemail. rewrite Hemail.
    destruct (createProduct api _); reflexivity.
  - intros u -> Hemail. run. simpl. rewrite Hemail. simpl.
    destruct (createProduct api _); reflexivity.
Qed.

Lemma create_product_baker_email_witness :
  requests (exec (handleCreateProduct None Samples.accepting Samples.form)
                 (Samples.page []))
  = [CreateProduct (Spec.with_baker Samples.form "default@baker.com")]
  /\ requests (exec (handleCreateProduct (Some Samples.maria)
                       Samples.accepting Samples.form)
                    (Samples.page []))
     = [CreateProduct (Spec.with_baker Samples.form "maria@bakery.ph")].
Proof.
  split.
  - apply (create_product_baker_email None Samples.accepting Samples.form
             (Samples.page [])).
    reflexivity.
  - apply (create_product_baker_email (Some Samples.maria)
             Samples.accepting Samples.form (Samples.page [])
             ) with (u := Samples.maria).
    + reflexivity.
    + discriminate.
Defined.

(** C9 as stated fails for a signed-in user whose email is the empty
    string: the request carries the default address, not the email of
    the user. *)
Lemma create_product_empty_email_counterexample :
  let sent :=
    requests (exec (handleCreateProduct (Some Samples.no_email)
                      Samples.accepting Samples.form)
                   (Samples.page [])) in
  User.email Samples.no_email = ""
  /\ sent = [CreateProduct
               (Spec.with_baker Samples.form "default@baker.com")]
  /\ sent <> [CreateProduct
                (Spec.with_baker Samples.form
                   (User.email Samples.no_email))].
Proof. simpl. repeat split. discriminate. Qed.

(** ** Order summary *)

Lemma float_mul_comm (x y : float) : (x * y)%float = (y * x)%float.
Proof.
  apply Prim2SF_inj. rewrite !mul_spec. unfold SF64mul, SFmul.
  destruct (Prim2SF x) as [sx|sx| |sx mx ex],
           (Prim2SF y) as [sy|sy| |sy my ey];
    rewrite ?(xorb_comm sx sy), ?(Pos.mul_comm mx my),
      ?(Z.add_comm ex ey); reflexivity.
Qed.

Lemma calculateCartTotal_snoc (c : Float64.Cart) (item : Float64.Line) :
  Float64.calculateCartTotal (c ++ [item])
  = (Float64.calculateCartTotal c
     + Float64.price item * Float64.quantity item)%float.
Proof.
  unfold Float64.calculateCartTotal. rewrite fold_left_app. reflexivity.
Qed.

(** C6: for a non-empty cart the order summary is shown.  With the
    arithmetic of the page, which is binary64: the subtotal is the
    running sum of price times quantity over the lines, from 0 and in
    cart order; the rows are that subtotal, the text 50.00, 0.12 times
    the subtotal, and the subtotal plus 50 plus 0.12 times the subtotal,
    each number printed by [toFixed(2)].  For 3 Pandesal at 10 and 2
    Ensaymada at 25 the rows read 80.00, 50.00, 9.60 and 139.60. *)
Theorem order_summary_totals :
  (forall c : Float64.Cart,
     c <> [] ->
     let subtotal := Float64.calculateCartTotal c in
     Float64.orderSummary c
     = Some (Float64.mkSummary
               (Float64.toFixed2 subtotal)
               "50.00"
               (Float64.toFixed2 (Float64.rate * subtotal)%float)
               (Float64.toFixed2
                  (subtotal + 50 + Float64.rate * subtotal)%float)))
  /\ Float64.calculateCartTotal [] = 0%float
  /\ (forall (c : Float64.Cart) (item : Float64.Line),
        Float64.calculateCartTotal (c ++ [item])
        = (Float64.calculateCartTotal c
           + Float64.price item * Float64.quantity item)%float)
  /\ Float64.orderSummary (Float64.of_cart Samples.scenario_cart)
     = Some (Float64.mkSummary (Some "80.00") "50.00"
                               (Some "9.60") (Some "139.60")).
Proof.
  split; [|split; [|split]].
  - intros c Hc subtotal. subst subtotal. unfold Float64.orderSummary.
    destruct c as [|item rest]; [contradiction|].
    cbv beta iota delta [Z.eqb Z.of_nat List.length].
    rewrite (float_mul_comm Float64.rate). reflexivity.
  - reflexivity.
  - exact calculateCartTotal_snoc.
  - vm_compute. reflexivity.
Qed.

Lemma order_summary_totals_witness :
  Float64.orderSummary (Float64.of_cart Samples.scenario_cart)
  = Some (Float64.mkSummary
            (Float64.toFixed2 80%float)
            "50.00"
            (Float64.toFixed2 (Float64.rate * 80)%float)
            (Float64.toFixed2 (80 + 50 + Float64.rate * 80)%float)).
Proof.
  apply (proj1 order_summary_totals
           (Float64.of_cart Samples.scenario_cart)).
  discriminate.
Defined.

(** The rows are those of the page also where binary64 rounding shows:
    at a price of 0.125 the tax row reads 0.01, the product with the
    number 0.12 falling just short of 0.015; at a price of 1.005 the
    subtotal row reads 1.00, the number nearest to 1.005 lying below
    it. *)
Lemma order_summary_rounding :
  Float64.orderSummary
    [Float64.mk (Samples.bread 1 "Pandesal" 0.125 20 true) 1%float]
  = Some (Float64.mkSummary (Some "0.13") "50.00"
                            (Some "0.01") (Some "50.14"))
  /\ Float64.orderSummary
       [Float64.mk (Samples.bread 1 "Pandesal" 1.005 20 true) 1%float]
     = Some (Float64.mkSummary (Some "1.00") "50.00"
                               (Some "0.12") (Some "51.13")).
Proof. split; vm_compute; reflexivity. Qed.

(** ** Deactivating and activating a user *)

Ltac run_admin :=
  cbv [exec AdminDashboard.handleDeactivateUser
       AdminDashboard.handleActivateUser
       AdminDashboard.deactivateUserMutation
       AdminDashboard.updateUserMutation
       AdminDashboard.api_deactivateUser AdminDashboard.api_updateUser
       mutateAsync mutationFn onSuccess onError bind ret modify gets
       AdminDashboard.setSelectedUser AdminDashboard.setUserDialogOpen
       AdminDashboard.setEditingUser AdminDashboard.toast
       AdminDashboard.toast_success AdminDashboard.toast_error
       AdminDashboard.invalidateQueries AdminDashboard.send
       AdminDashboard.serve snd fst].

Lemma lookup_map (g : User.t -> User.t) (id : Z) (db : Backend.Users) :
  (forall u, User.id (g u) = User.id u) ->
  Backend.lookup id (map g db) = option_map g (Backend.lookup id db).
Proof.
  intros Hg. unfold Backend.lookup.
  apply (find_map_stable (fun u => User.id u =? id) g db).
  intros u. now rewrite Hg.
Qed.

Lemma lookup_id (id : Z) (db : Backend.Users) (u : User.t) :
  Backend.lookup id db = Some u -> User.id u = id.
Proof.
  unfold Backend.lookup. intros H. apply find_some in H.
  now apply Z.eqb_eq.
Qed.

Lemma lookup_deactivateUser (id id' : Z) (db : Backend.Users) :
  Backend.lookup id' (Backend.deactivateUser id db)
  = option_map (fun u => if User.id u =? id then Spec.with_active u false else u)
               (Backend.lookup id' db).
Proof.
  unfold Backend.deactivateUser. apply lookup_map.
  intros u. now destruct (User.id u =? id).
Qed.

Lemma lookup_updateUser
      (id id' : Z) (d : Backend.PartialUser.t) (db : Backend.Users) :
  Backend.lookup id' (Backend.updateUser id d db)
  = option_map (fun u => if User.id u =? id then Backend.patch u d else u)
               (Backend.lookup id' db).
Proof.
  unfold Backend.updateUser. apply lookup_map.
  intros u. now destruct (User.id u =? id).
Qed.

(** C8: when both confirmations are given and both calls reach the
    backing service, deactivating a stored user and then activating it
    sends [deactivateUser(id)] followed by [updateUser(id, { is_active:
    true })], a payload with no other field; in between the user is
    inactive, afterwards the stored record has [is_active] true and the
    name, email, username, role, phone, address, identifier and creation
    time it had at the start, and no other user's record has changed. *)
Theorem deactivate_activate_round_trip
        (confirm : string -> bool)
        (failure : AdminDashboard.Request -> option Error)
        (st : AdminDashboard.State) (u : User.t) :
  let only_active :=
    Backend.PartialUser.mk None None None None None None (Some true) in
  Backend.lookup (User.id u) (AdminDashboard.users st) = Some u ->
  confirm "Are you sure you want to deactivate this baker?" = true ->
  confirm "Are you sure you want to activate this baker?" = true ->
  failure (AdminDashboard.DeactivateUser (User.id u)) = None ->
  failure (AdminDashboard.UpdateUser (User.id u) only_active) = None ->
  let st1 :=
    exec (AdminDashboard.handleDeactivateUser confirm failure (User.id u))
         st in
  let st2 :=
    exec (AdminDashboard.handleActivateUser confirm failure (User.id u))
         st1 in
  Backend.lookup (User.id u) (AdminDashboard.users st1)
  = Some (Spec.with_active u false)
  /\ AdminDashboard.requests st2
     = AdminDashboard.requests st
       ++ [AdminDashboard.DeactivateUser (User.id u);
           AdminDashboard.UpdateUser (User.id u) only_active]
  /\ Backend.lookup (User.id u) (AdminDashboard.users st2)
     = Some (Spec.with_active u true)
  /\ forall id,
       id <> User.id u ->
       Backend.lookup id (AdminDashboard.users st2)
       = Backend.lookup id (AdminDashboard.users st).
Proof.
  intros only_active Hu Hc1 Hc2 Hf1 Hf2 st1 st2.
  assert (Hst1 : AdminDashboard.users st1
                 = Backend.deactivateUser (User.id u)
                     (AdminDashboard.users st)
                 /\ AdminDashboard.requests st1
                    = AdminDashboard.requests st
                      ++ [AdminDashboard.DeactivateUser (User.id u)]).
  { subst st1. run_admin. rewrite Hc1. simpl. rewrite Hf1. simpl. auto. }
  assert (Hst2 : AdminDashboard.users st2
                 = Backend.updateUser (User.id u) only_active
                     (AdminDashboard.users st1)
                 /\ AdminDashboard.requests st2
                    = AdminDashboard.requests st1
                      ++ [AdminDashboard.UpdateUser (User.id u)
                            only_active]).
  { subst st2. run_admin. rewrite Hc2. simpl. fold only_active.
    rewrite Hf2. simpl. auto. }
  destruct Hst1 as [Hu1 Hr1], Hst2 as [Hu2 Hr2].
  split; [|split; [|split]].
  - rewrite Hu1, lookup_deactivateUser, Hu. simpl.
    now rewrite Z.eqb_refl.
  - rewrite Hr2, Hr1, <- app_assoc. reflexivity.
  - rewrite Hu2, lookup_updateUser, Hu1, lookup_deactivateUser, Hu.
    simpl. rewrite Z.eqb_refl. simpl. now rewrite Z.eqb_refl.
  - intros id Hid.
    rewrite Hu2, lookup_updateUser, Hu1, lookup_deactivateUser.
    destruct (Backend.lookup id (AdminDashboard.users st)) as [v|] eqn:Ev;
      [|reflexivity].
    apply lookup_id in Ev. simpl.
    assert (Hne : (User.id v =? User.id u) = false)
      by (apply Z.eqb_neq; congruence).
    rewrite Hne. simpl. now rewrite Hne.
Qed.

Lemma deactivate_activate_round_trip_witness :
  Backend.lookup 7
    (AdminDashboard.users
       (exec (AdminDashboard.handleActivateUser
                Samples.always_yes Samples.reliable 7)
             (exec (AdminDashboard.handleDeactivateUser
                      Samples.always_yes Samples.reliable 7)
                   Samples.admin_page)))
  = Some Samples.maria.
Proof.
  destruct (deactivate_activate_round_trip Samples.always_yes
              Samples.reliable Samples.admin_page Samples.maria
              eq_refl eq_refl eq_refl eq_refl eq_refl)
    as (_ & _ & Hback & _).
  exact Hback.
Defined.

(** * Further properties of the pages *)

(** ** Sessions of cart actions *)

Lemma exec_seq {S A B} (m : M S A) (k : M S B) (s : S) :
  exec (m ;; k) s = exec k (exec m s).
Proof. unfold exec, bind. destruct (m s). reflexivity. Qed.

Lemma ids_map_quantity (f : CartItem.t -> Z) (g : CartItem.t -> bool)
      (c : Cart) :
  Session.ids
    (map (fun item =>
            if g item then CartItem.mk (CartItem.product item) (f item)
            else item) c)
  = Session.ids c.
Proof.
  unfold Session.ids. rewrite map_map. apply map_ext.
  intros item. now destruct (g item).
Qed.

Lemma NoDup_ids_filter (g : CartItem.t -> bool) (c : Cart) :
  NoDup (Session.ids c) -> NoDup (Session.ids (filter g c)).
Proof.
  unfold Session.ids. induction c as [|item rest IH]; simpl; intros Hn.
  - constructor.
  - inversion Hn as [|? ? Hnotin Hrest]; subst.
    destruct (g item); simpl; auto.
    constructor; auto.
    intros Hin. apply Hnotin. apply in_map_iff in Hin.
    destruct Hin as (x & Hx & Hin). apply filter_In in Hin.
    apply in_map_iff. exists x. tauto.
Qed.

Lemma find_none_not_in_ids (p : Product.t) (c : Cart) :
  find (fun item => Product.id (CartItem.product item) =? Product.id p) c
  = None ->
  ~ In (Product.id p) (Session.ids c).
Proof.
  intros Hfind Hin. unfold Session.ids in Hin. apply in_map_iff in Hin.
  destruct Hin as (x & Hx & Hin).
  pose proof (find_none _ _ Hfind x Hin) as Hf. simpl in Hf.
  apply Z.eqb_neq in Hf. contradiction.
Qed.

Lemma handleAddToCart_unique (p : Product.t) (st : State) :
  NoDup (Session.ids (cart st)) ->
  NoDup (Session.ids (cart (exec (handleAddToCart p) st))).
Proof.
  intros Hn. run. destruct (Product.stock_quantity p >? 0); simpl; auto.
  destruct (find _ (cart st)) eqn:Hfind.
  - rewrite (ids_map_quantity (fun item => CartItem.quantity item + 1)
               (fun item =>
                  Product.id (CartItem.product item) =? Product.id p)).
    assumption.
  - unfold Session.ids. rewrite map_app. simpl.
    apply NoDup_app; [assumption|repeat constructor; intros []|].
    intros x Hx [<-|[]].
    now apply (find_none_not_in_ids p (cart st) Hfind).
Qed.

Lemma handleRemoveFromCart_unique (productId : Z) (st : State) :
  NoDup (Session.ids (cart st)) ->
  NoDup (Session.ids (cart (exec (handleRemoveFromCart productId) st))).
Proof. intros Hn. run. simpl. now apply NoDup_ids_filter. Qed.

Lemma handleUpdateCartQuantity_unique
      (productId newQuantity : Z) (st : State) :
  NoDup (Session.ids (cart st)) ->
  NoDup (Session.ids
           (cart (exec (handleUpdateCartQuantity productId newQuantity)
                       st))).
Proof.
  intros Hn. run. destruct (newQuantity <? 1); simpl.
  - now apply NoDup_ids_filter.
  - rewrite (ids_map_quantity (fun _ => newQuantity)
               (fun item =>
                  Product.id (CartItem.product item) =? productId)).
    assumption.
Qed.

(** Checkout leaves the cart as it is or empties it. *)
Lemma handleCheckout_cart
      (api : ApiService) (data : CheckoutForm.t) (st : State) :
  cart (exec (handleCheckout api data) st) = cart st
  \/ cart (exec (handleCheckout api data) st) = [].
Proof.
  run. destruct (Z.of_nat (List.length (cart st)) =? 0); simpl; auto.
  destruct (createOrder api _); simpl; auto.
Qed.

(** X1: whatever the customer does, in whatever order, the cart never
    holds two lines for one product: unique product identifiers are kept
    by every sequence of add, update, remove and checkout calls. *)
Theorem session_keeps_unique_ids
        (api : ApiService) (actions : list Session.Action) (st : State) :
  NoDup (Session.ids (cart st)) ->
  NoDup (Session.ids (cart (exec (Session.play api actions) st))).
Proof.
  revert st. induction actions as [|a rest IH]; intros st Hn; simpl.
  - exact Hn.
  - rewrite exec_seq. apply IH. destruct a; simpl.
    + now apply handleAddToCart_unique.
    + now apply handleUpdateCartQuantity_unique.
    + now apply handleRemoveFromCart_unique.
    + destruct (handleCheckout_cart api data st) as [-> | ->];
        [assumption|constructor].
Qed.

Lemma session_keeps_unique_ids_witness :
  NoDup (Session.ids
           (cart (exec (Session.play Samples.accepting
                          [Session.AddToCart Samples.pandesal;
                           Session.AddToCart Samples.ensaymada;
                           Session.AddToCart Samples.pandesal;
                           Session.UpdateCartQuantity 2 4])
                       (Samples.page [])))).
Proof.
  apply session_keeps_unique_ids. constructor.
Defined.

(** ** A cleared quantity field *)

Lemma float_add_nan_l (x : float) : (nan + x)%float = nan.
Proof.
  apply Prim2SF_inj. rewrite add_spec. reflexivity.
Qed.

Lemma float_add_nan_r (x : float) : (x + nan)%float = nan.
Proof.
  apply Prim2SF_inj. rewrite add_spec.
  change (Prim2SF nan) with S754_nan.
  now destruct (Prim2SF x).
Qed.

Lemma float_mul_nan_r (x : float) : (x * nan)%float = nan.
Proof.
  apply Prim2SF_inj. rewrite mul_spec.
  change (Prim2SF nan) with S754_nan.
  now destruct (Prim2SF x).
Qed.

Lemma calculateCartTotal_from_nan (c : Float64.Cart) :
  fold_left
    (fun total item =>
       (total + Float64.price item * Float64.quantity item)%float)
    c nan
  = nan.
Proof.
  induction c as [|item rest IH]; simpl.
  - reflexivity.
  - now rewrite float_add_nan_l.
Qed.

Lemma calculateCartTotal_nan_line (c : Float64.Cart) (line : Float64.Line) :
  In line c -> Float64.quantity line = nan ->
  Float64.calculateCartTotal c = nan.
Proof.
  unfold Float64.calculateCartTotal. generalize 0%float as start.
  induction c as [|item rest IH]; intros start Hin Hnan.
  - destruct Hin.
  - simpl. destruct Hin as [->|Hin].
    + rewrite Hnan, float_mul_nan_r, float_add_nan_r.
      apply calculateCartTotal_from_nan.
    + now apply IH.
Qed.

(** X2: a quantity of at least 1 is not an invariant of the cart.
    [handleUpdateCartQuantity] removes a line only when the new quantity
    compares below 1; [NaN], which the quantity field passes when it is
    cleared, does not, so every line is kept and the lines of the
    product get the quantity [NaN].  When the product has a line, the
    subtotal is then [NaN] and the summary reads NaN in its three
    computed rows. *)
Theorem cleared_quantity_is_stored (productId : Z) (c : Float64.Cart) :
  let c' := Float64.handleUpdateCartQuantity productId nan c in
  List.length c' = List.length c
  /\ (forall i line,
        nth_error c i = Some line ->
        nth_error c' i
        = Some (if Product.id (Float64.product line) =? productId
                then Float64.mk (Float64.product line) nan
                else line))
  /\ ((exists line,
         In line c /\ Product.id (Float64.product line) = productId) ->
      Float64.calculateCartTotal c' = nan
      /\ Float64.orderSummary c'
         = Some (Float64.mkSummary (Some "NaN") "50.00"
                                   (Some "NaN") (Some "NaN"))).
Proof.
  intros c'. subst c'. unfold Float64.handleUpdateCartQuantity.
  change (nan <? 1)%float with false. cbv iota.
  split; [apply length_map|split].
  - intros i line Hi. now rewrite nth_error_map, Hi.
  - intros (line & Hin & Hid).
    assert (Htotal :
      Float64.calculateCartTotal
        (map (fun item =>
                if Product.id (Float64.product item) =? productId
                then Float64.mk (Float64.product item) nan
                else item) c) = nan).
    { apply (calculateCartTotal_nan_line _
               (Float64.mk (Float64.product line) nan));
        [|reflexivity].
      apply in_map_iff. exists line. split; [|assumption].
      apply Z.eqb_eq in Hid. now rewrite Hid. }
    split; [exact Htotal|].
    unfold Float64.orderSummary. rewrite Htotal, length_map.
    destruct c as [|item rest]; [destruct Hin|].
    cbv beta iota delta [Z.eqb Z.of_nat List.length].
    rewrite float_add_nan_l. reflexivity.
Qed.

Lemma cleared_quantity_is_stored_witness :
  Float64.orderSummary
    (Float64.handleUpdateCartQuantity 1 nan
       (Float64.of_cart Samples.scenario_cart))
  = Some (Float64.mkSummary (Some "NaN") "50.00"
                            (Some "NaN") (Some "NaN")).
Proof.
  apply (cleared_quantity_is_stored 1
           (Float64.of_cart Samples.scenario_cart)).
  exists (Float64.mk Samples.pandesal 3%float). split.
  - left. reflexivity.
  - reflexivity.
Defined.

(** ** Composing cart handlers *)

Lemma filter_map_stable {A} (g : A -> bool) (f : A -> A) (l : list A) :
  (forall x, g (f x) = g x) ->
  filter g (map f l) = map f (filter g l).
Proof.
  intros Hg. induction l as [|a l IH]; simpl.
  - reflexivity.
  - rewrite Hg. destruct (g a); simpl; now rewrite IH.
Qed.


(** X3: adding a product that has no line yet and then removing it gives
    back the cart from before, line for line. *)
Theorem add_then_remove_restores (p : Product.t) (st : State) :
  Product.stock_quantity p > 0 ->
  ~ Spec.has_line (Product.id p) (cart st) ->
  cart (exec (handleRemoveFromCart (Product.id p))
             (exec (handleAddToCart p) st))
  = cart st.
Proof.
  intros Hstock Hno.
  assert (Hgt : (Product.stock_quantity p >? 0) = true)
    by (apply Z.gtb_lt; lia).
  run. rewrite Hgt. simpl. rewrite (no_line_find p (cart st) Hno).
  rewrite filter_app. simpl. rewrite Z.eqb_refl. simpl.
  rewrite app_nil_r. apply filter_all. intros x Hx.
  now rewrite (absent_ids (Product.id p) (cart st) Hno x Hx).
Qed.

Lemma add_then_remove_restores_witness :
  cart (exec (handleRemoveFromCart 5)
             (exec (handleAddToCart Samples.last_piece)
                   (Samples.page Samples.scenario_cart)))
  = Samples.scenario_cart.
Proof.
  apply (add_then_remove_restores Samples.last_piece
           (Samples.page Samples.scenario_cart)).
  - reflexivity.
  - intros (item & Hin & Hid). simpl in Hin.
    destruct Hin as [<-|[<-|[]]]; discriminate Hid.
Defined.

(** X4: of two quantity changes to one product the last one wins: after
    a first change to a quantity of 1 or more, a second change leaves
    the cart it would have left on its own. *)
Theorem update_quantity_last_wins
        (productId first second : Z) (st : State) :
  first >= 1 ->
  cart (exec (handleUpdateCartQuantity productId second)
             (exec (handleUpdateCartQuantity productId first) st))
  = cart (exec (handleUpdateCartQuantity productId second) st).
Proof.
  intros Hfirst. run.
  destruct (Z.ltb_spec first 1) as [H|_]; [lia|].
  destruct (second <? 1); simpl.
  - rewrite filter_map_stable.
    + apply map_fixed. intros x Hx. apply filter_In in Hx.
      destruct Hx as [_ Hx]. apply negb_true_iff in Hx. now rewrite Hx.
    + intros x.
      now destruct (Product.id (CartItem.product x) =? productId) eqn:E;
        simpl; rewrite ?E.
  - rewrite map_map. apply map_ext. intros x.
    now destruct (Product.id (CartItem.product x) =? productId) eqn:E;
      simpl; rewrite ?E.
Qed.

Lemma update_quantity_last_wins_witness :
  cart (exec (handleUpdateCartQuantity 1 7)
             (exec (handleUpdateCartQuantity 1 5)
                   (Samples.page Samples.scenario_cart)))
  = cart (exec (handleUpdateCartQuantity 1 7)
               (Samples.page Samples.scenario_cart)).
Proof.
  apply (update_quantity_last_wins 1 5 7
           (Samples.page Samples.scenario_cart)).
  lia.
Defined.



(** ** What checkout sends *)

Lemma handleCheckout_requests
      (api : ApiService) (data : CheckoutForm.t) (st : State) :
  cart st <> [] ->
  requests (exec (handleCheckout api data) st)
  = requests st ++ [CreateOrder (Spec.order_request data (cart st))].
Proof.
  intros Hcart.
  assert (Hlen : (Z.of_nat (List.length (cart st)) =? 0) = false).
  { destruct (cart st); [contradiction|]. reflexivity. }
  run. rewrite Hlen. simpl. unfold Spec.order_request.
  destruct (createOrder api _); reflexivity.
Qed.

(** X8: the order sent at checkout is made of the product names and the
    quantities of the lines, in the order of the cart, and of nothing
    else: two carts that agree on those send the same order, whatever
    the identifiers, prices or stock of their products. *)
Theorem order_is_keyed_by_name
        (api : ApiService) (data : CheckoutForm.t) (st1 st2 : State) :
  cart st1 <> [] ->
  map (fun item => (Product.name (CartItem.product item),
                    CartItem.quantity item)) (cart st1)
  = map (fun item => (Product.name (CartItem.product item),
                      CartItem.quantity item)) (cart st2) ->
  requests st1 = requests st2 ->
  requests (exec (handleCheckout api data) st1)
  = requests (exec (handleCheckout api data) st2).
Proof.
  intros Hcart Hsame Hreq.
  assert (Hcart2 : cart st2 <> []).
  { intros E. rewrite E in Hsame. destruct (cart st1); [auto|].
    discriminate Hsame. }
  rewrite !handleCheckout_requests by assumption.
  rewrite Hreq. do 3 f_equal. unfold Spec.order_request. f_equal.
  assert (Hitems : forall c : Cart,
    map (fun item =>
           OrderItem.mk (Product.name (CartItem.product item))
                        (CartItem.quantity item)) c
    = map (fun nq => OrderItem.mk (fst nq) (snd nq))
          (map (fun item => (Product.name (CartItem.product item),
                             CartItem.quantity item)) c)).
  { intros c. now rewrite map_map. }
  rewrite !Hitems, Hsame. reflexivity.
Qed.

Lemma order_is_keyed_by_name_witness :
  requests
    (exec (handleCheckout Samples.accepting Samples.address)
          (Samples.page [CartItem.mk Samples.pandesal 3]))
  = requests
      (exec (handleCheckout Samples.accepting Samples.address)
            (Samples.page
               [CartItem.mk (Samples.bread 9 "Pandesal" 99 1 false) 3])).
Proof.
  apply order_is_keyed_by_name.
  - discriminate.
  - reflexivity.
  - reflexivity.
Defined.

(** X9: submitting again after a rejected order sends the same order a
    second time, since the cart was kept; submitting again after an
    accepted order sends nothing, since the cart is empty by then. *)
Theorem checkout_twice
        (api : ApiService) (data again : CheckoutForm.t) (st : State) :
  cart st <> [] ->
  let request := Spec.order_request data (cart st) in
  (forall error,
     createOrder api request = Rejected error ->
     requests (exec (handleCheckout api data)
                    (exec (handleCheckout api data) st))
     = requests st ++ [CreateOrder request; CreateOrder request])
  /\ (forall order,
        createOrder api request = Resolved order ->
        requests (exec (handleCheckout api again)
                       (exec (handleCheckout api data) st))
        = requests st ++ [CreateOrder request]).
Proof.
  intros Hcart request.
  assert (Hlen : (Z.of_nat (List.length (cart st)) =? 0) = false).
  { destruct (cart st); [contradiction|]. reflexivity. }
  split.
  - intros error Hfail.
    assert (Hkept : cart (exec (handleCheckout api data) st) = cart st).
    { run. rewrite Hlen. simpl.
      unfold request, Spec.order_request in Hfail. rewrite Hfail.
      reflexivity. }
    rewrite handleCheckout_requests by (rewrite Hkept; assumption).
    rewrite handleCheckout_requests by assumption.
    rewrite Hkept, <- app_assoc. reflexivity.
  - intros order Hok.
    assert (Hempty : cart (exec (handleCheckout api data) st) = []).
    { run. rewrite Hlen. simpl.
      unfold request, Spec.order_request in Hok. rewrite Hok.
      reflexivity. }
    destruct (exec (handleCheckout api data) st)
      as [c sc ep spf ts inv rq rs] eqn:E.
    simpl in Hempty. subst c. simpl.
    change rq with (requests (mkState [] sc ep spf ts inv rq rs)).
    rewrite <- E. now apply handleCheckout_requests.
Qed.

Lemma checkout_twice_witness :
  requests
    (exec (handleCheckout Samples.accepting Samples.address)
          (exec (handleCheckout Samples.accepting Samples.address)
                (Samples.page Samples.scenario_cart)))
  = [CreateOrder
       (Spec.order_request Samples.address Samples.scenario_cart)].
Proof.
  apply (proj2 (checkout_twice Samples.accepting Samples.address
                  Samples.address (Samples.page Samples.scenario_cart)
                  ltac:(discriminate))
           (Order.mk 1)).
  reflexivity.
Defined.

(** ** Outcome of creating a product *)

(** X10: [handleCreateProduct] never touches the cart.  When the service
    accepts the product, the ['products'] query is invalidated, the form
    is closed and reset; when it rejects it, the form stays as it was,
    nothing is invalidated, and the toast shows the error message, or
    'Failed to create product' when the message is empty. *)
Theorem create_product_outcome
        (user : option User.t) (api : ApiService)
        (data : ProductFormData.t) (st : State) :
  let payload :=
    Spec.with_baker data
      (or_default (option_map User.email user) "default@baker.com") in
  let st' := exec (handleCreateProduct user api data) st in
  (forall created,
     createProduct api payload = Resolved created ->
     st' = mkState (cart st) (showCart st) (editingProduct st) false
             (toasts st ++ [ToastSuccess "Product created successfully!"])
             (invalidated st ++ [["products"]])
             (requests st ++ [CreateProduct payload])
             (resets st ++ [ProductForm]))
  /\ (forall error,
        createProduct api payload = Rejected error ->
        st' = mkState (cart st) (showCart st) (editingProduct st)
                (showProductForm st)
                (toasts st
                 ++ [ToastError
                       (if String.eqb (message error) ""
                        then "Failed to create product"
                        else message error)])
                (invalidated st)
                (requests st ++ [CreateProduct payload])
                (resets st)).
Proof.
  intros payload st'. subst payload st'.
  unfold Spec.with_baker. split.
  - intros created Hok. run. rewrite Hok. reflexivity.
  - intros error Hfail. run. rewrite Hfail. reflexivity.
Qed.

Lemma create_product_outcome_witness :
  showProductForm
    (exec (handleCreateProduct None (Samples.rejecting "Forbidden")
             Samples.form)
          (mkState [] false None true [] [] [] []))
  = true.
Proof.
  rewrite (proj2 (create_product_outcome None
                    (Samples.rejecting "Forbidden") Samples.form
                    (mkState [] false None true [] [] [] []))
             (mkError "Forbidden") eq_refl).
  reflexivity.
Defined.

(** ** Editing and deleting products *)

Ltac run_catalog :=
  cbv [exec Catalog.handleUpdateProduct Catalog.handleEditProduct
       Catalog.handleDeleteProduct Catalog.submitProductForm
       Catalog.closeProductDialog Catalog.clickAddProduct
       Catalog.updateProductMutation Catalog.deleteProductMutation
       Catalog.lift Catalog.send Catalog.setEditingProduct
       Catalog.productDialogOpen
       handleCreateProduct createProductMutation
       mutate mutateAsync mutationFn onSuccess onError bind ret modify gets
       setShowProductForm toast toast_success toast_error
       invalidateQueries send resetForm reset snd fst].

(** X11: who is shown which product controls.  "Add Product", "Edit" and
    "Delete" are shown to everyone who is not a customer, visitors who
    are not signed in and delivery persons included, although
    [isBakerOrAdmin] is false for them; "Add to Cart" is shown to
    customers only. *)
Theorem product_controls_gate (user : option User.t) :
  (Catalog.addProductShown user = true
   <-> Catalog.cardActions user
       = [Catalog.EditButton; Catalog.DeleteButton])
  /\ (Catalog.cardActions user = [Catalog.AddToCartButton]
      <-> exists u, user = Some u /\ User.role u = Role.customer)
  /\ (Catalog.isBakerOrAdmin user = true ->
      Catalog.addProductShown user = true)
  /\ (Catalog.addProductShown user = true
      /\ Catalog.isBakerOrAdmin user = false
      <-> user = None
          \/ exists u, user = Some u /\ User.role u = Role.delivery_person).
Proof.
  unfold Catalog.addProductShown, Catalog.cardActions,
    Catalog.isBakerOrAdmin, Catalog.role_is.
  destruct user as [[i fn em un r ph ad act cr]|]; simpl;
    [destruct r; simpl|];
    (split; [|split; [|split]]); try split; intros H;
    try reflexivity; try discriminate H;
    try (destruct H; discriminate);
    try (destruct H as (u & Hu & Hr); inversion Hu; subst;
         discriminate Hr);
    try (destruct H as [H|(u & Hu & Hr)];
         [discriminate H|inversion Hu; subst; discriminate Hr]);
    try (split; reflexivity);
    try (eexists; split; reflexivity);
    try (right; eexists; split; reflexivity);
    try (left; reflexivity).
Qed.

Lemma product_controls_gate_witness :
  Catalog.addProductShown (Some Samples.maria) = true.
Proof.
  apply (proj1 (proj2 (proj2 (product_controls_gate
                                (Some Samples.maria))))).
  reflexivity.
Defined.

(** X12: declining the confirmation of a delete leaves everything as it
    was: no request, no toast, no invalidation. *)
Theorem delete_declined_is_noop
        (confirm : string -> bool) (api : Catalog.ApiService)
        (id : Z) (st : Catalog.State) :
  confirm "Are you sure you want to delete this product?" = false ->
  exec (Catalog.handleDeleteProduct confirm api id) st = st.
Proof.
  intros Hno. run_catalog. rewrite Hno. reflexivity.
Qed.

(** A user who declines every dialog. *)
Lemma delete_declined_is_noop_witness :
  exec (Catalog.handleDeleteProduct (fun _ => false)
          (Catalog.mkApi (fun _ _ => Resolved Samples.pandesal)
                         (fun _ => Resolved tt)) 1)
       (Catalog.mkState (Samples.page Samples.scenario_cart) [])
  = Catalog.mkState (Samples.page Samples.scenario_cart) [].
Proof.
  apply delete_declined_is_noop. reflexivity.
Defined.

(** X13: a confirmed delete sends one [deleteProduct] call for the given
    identifier and never touches the cart; the ['products'] query is
    invalidated when the service accepts the call and only then; a
    rejected call shows the error message, or 'Failed to delete product'
    when the message is empty. *)
Theorem delete_confirmed_outcome
        (confirm : string -> bool) (api : Catalog.ApiService)
        (id : Z) (st : Catalog.State) :
  confirm "Are you sure you want to delete this product?" = true ->
  let st' := exec (Catalog.handleDeleteProduct confirm api id) st in
  Catalog.requests st' = Catalog.requests st ++ [Catalog.DeleteProduct id]
  /\ cart (Catalog.page st') = cart (Catalog.page st)
  /\ (Catalog.deleteProduct api id = Resolved tt ->
      invalidated (Catalog.page st')
      = invalidated (Catalog.page st) ++ [["products"]]
      /\ toasts (Catalog.page st')
         = toasts (Catalog.page st)
           ++ [ToastSuccess "Product deleted successfully!"])
  /\ (forall error,
        Catalog.deleteProduct api id = Rejected error ->
        invalidated (Catalog.page st') = invalidated (Catalog.page st)
        /\ toasts (Catalog.page st')
           = toasts (Catalog.page st)
             ++ [ToastError
                   (if String.eqb (message error) ""
                    then "Failed to delete product"
                    else message error)]).
Proof.
  intros Hyes st'. subst st'. run_catalog. rewrite Hyes.
  destruct (Catalog.deleteProduct api id) as [[]|e]; simpl;
    (split; [reflexivity|split; [reflexivity|split]]).
  - intros _. split; reflexivity.
  - intros error H. discriminate H.
  - intros H. discriminate H.
  - intros error [= <-]. split; reflexivity.
Qed.

Lemma delete_confirmed_outcome_witness :
  Catalog.requests
    (exec (Catalog.handleDeleteProduct (fun _ => true)
             (Catalog.mkApi (fun _ _ => Resolved Samples.pandesal)
                            (fun _ => Rejected (mkError "In use"))) 1)
          (Catalog.mkState (Samples.page Samples.scenario_cart) []))
  = [Catalog.DeleteProduct 1].
Proof.
  apply (delete_confirmed_outcome (fun _ => true)
           (Catalog.mkApi (fun _ _ => Resolved Samples.pandesal)
                          (fun _ => Rejected (mkError "In use"))) 1
           (Catalog.mkState (Samples.page Samples.scenario_cart) [])).
  reflexivity.
Defined.

(** X14: choosing "Edit" on a product and submitting the form sends one
    [updateProduct] call, for the identifier of that product and with
    the form data as they are (no [baker_email] is added), and no
    [createProduct] call.  When the service accepts it, the product is
    no longer being edited and the ['products'] query is invalidated;
    when it rejects it, the product is still being edited, the dialog is
    still open and nothing is invalidated. *)
Theorem edit_then_submit
        (user : option User.t) (productsApi : ApiService)
        (api : Catalog.ApiService) (p : Product.t)
        (data : ProductFormData.t) (st : Catalog.State) :
  let st' :=
    exec (Catalog.submitProductForm user productsApi api data)
         (exec (Catalog.handleEditProduct p) st) in
  Catalog.requests st'
  = Catalog.requests st ++ [Catalog.UpdateProduct (Product.id p) data]
  /\ requests (Catalog.page st') = requests (Catalog.page st)
  /\ cart (Catalog.page st') = cart (Catalog.page st)
  /\ (forall updated,
        Catalog.updateProduct api (Product.id p) data = Resolved updated ->
        editingProduct (Catalog.page st') = None
        /\ Catalog.productDialogOpen st'
           = showProductForm (Catalog.page st)
        /\ invalidated (Catalog.page st')
           = invalidated (Catalog.page st) ++ [["products"]])
  /\ (forall error,
        Catalog.updateProduct api (Product.id p) data = Rejected error ->
        editingProduct (Catalog.page st') = Some p
        /\ Catalog.productDialogOpen st' = true
        /\ invalidated (Catalog.page st')
           = invalidated (Catalog.page st)).
Proof.
  intros st'. subst st'. run_catalog. simpl.
  destruct (Catalog.updateProduct api (Product.id p) data) as [d|e];
    simpl; (split; [reflexivity|split; [reflexivity|split;
             [reflexivity|split]]]).
  - intros updated _. rewrite orb_false_r. repeat split.
  - intros error H. discriminate H.
  - intros updated H. discriminate H.
  - intros error _. rewrite orb_true_r. repeat split.
Qed.

(** X15: [handleUpdateProduct] without a product being edited does
    nothing at all. *)
Theorem update_without_editing_is_noop
        (api : Catalog.ApiService) (data : ProductFormData.t)
        (st : Catalog.State) :
  editingProduct (Catalog.page st) = None ->
  exec (Catalog.handleUpdateProduct api data) st = st.
Proof.
  intros Hnone. run_catalog. rewrite Hnone. simpl.
  now destruct st.
Qed.

Lemma update_without_editing_is_noop_witness :
  exec (Catalog.handleUpdateProduct
          (Catalog.mkApi (fun _ _ => Resolved Samples.pandesal)
                         (fun _ => Resolved tt))
          Samples.form)
       (Catalog.mkState (Samples.page []) [])
  = Catalog.mkState (Samples.page []) [].
Proof.
  apply update_without_editing_is_noop. reflexivity.
Defined.

(** X16: closing the product dialog (Cancel or [onClose]) closes it from
    every state and forgets the product being edited: a submit that
    follows is a create, with the [baker_email] of the user, and never
    an update. *)
Theorem close_then_submit_creates
        (user : option User.t) (productsApi : ApiService)
        (api : Catalog.ApiService) (data : ProductFormData.t)
        (st : Catalog.State) :
  let closed := exec Catalog.closeProductDialog st in
  let st' :=
    exec (Catalog.submitProductForm user productsApi api data) closed in
  Catalog.productDialogOpen closed = false
  /\ Catalog.requests closed = Catalog.requests st
  /\ cart (Catalog.page closed) = cart (Catalog.page st)
  /\ Catalog.requests st' = Catalog.requests st
  /\ requests (Catalog.page st')
     = requests (Catalog.page st)
       ++ [CreateProduct
             (Spec.with_baker data
                (or_default (option_map User.email user)
                            "default@baker.com"))].
Proof.
  intros closed st'. subst closed st'. run_catalog. simpl.
  unfold Spec.with_baker.
  destruct (createProduct productsApi _); simpl; repeat split.
Qed.

Lemma edit_then_submit_witness :
  editingProduct
    (Catalog.page
       (exec (Catalog.submitProductForm None Samples.accepting
                (Catalog.mkApi (fun _ _ => Rejected (mkError "Forbidden"))
                               (fun _ => Resolved tt))
                Samples.form)
             (exec (Catalog.handleEditProduct Samples.pandesal)
                   (Catalog.mkState (Samples.page []) []))))
  = Some Samples.pandesal.
Proof.
  destruct (edit_then_submit None Samples.accepting
              (Catalog.mkApi (fun _ _ => Rejected (mkError "Forbidden"))
                             (fun _ => Resolved tt))
              Samples.pandesal Samples.form
              (Catalog.mkState (Samples.page []) []))
    as (_ & _ & _ & _ & Hrejected).
  apply (Hrejected (mkError "Forbidden")). reflexivity.
Defined.

(** ** Managing users *)

Ltac run_users :=
  cbv [exec UserManagement.handleUpdateUser UserManagement.handleSubmit
       UserManagement.handleEditUser UserManagement.clickAddBaker
       UserManagement.closeUserDialog UserManagement.userDialogTitle
       AdminDashboard.handleDeactivateUser
       AdminDashboard.handleActivateUser
       AdminDashboard.deactivateUserMutation
       AdminDashboard.updateUserMutation
       AdminDashboard.api_deactivateUser AdminDashboard.api_updateUser
       mutateAsync mutationFn onSuccess onError bind ret modify gets
       AdminDashboard.setSelectedUser AdminDashboard.setUserDialogOpen
       AdminDashboard.setEditingUser AdminDashboard.toast
       AdminDashboard.toast_success AdminDashboard.toast_error
       AdminDashboard.invalidateQueries AdminDashboard.send
       AdminDashboard.serve snd fst].

(** X17: the "Add New Baker" dialog cannot add anyone.  From every
    state, closing the dialog and pressing "Add Baker" opens it under
    the title 'Add New Baker', and submitting its form, with whatever
    data, sends no request and changes nothing. *)
Theorem add_baker_submit_is_noop
        (failure : AdminDashboard.Request -> option Error)
        (formData : UserManagement.FormData.t)
        (st : AdminDashboard.State) :
  let opened :=
    exec UserManagement.clickAddBaker
         (exec UserManagement.closeUserDialog st) in
  AdminDashboard.userDialogOpen opened = true
  /\ UserManagement.userDialogTitle opened = "Add New Baker"
  /\ exec (UserManagement.handleSubmit failure formData) opened = opened.
Proof.
  intros opened. subst opened. run_users. simpl. repeat split.
Qed.

(** X18: choosing "Edit" on a user and submitting the form sends one
    [updateUser] call for the identifier of that user.  When the call
    goes through, the dialog is closed, no user is being edited and the
    ['admin-users'] query is invalidated; when it fails, the dialog
    stays open on the same user, nothing is invalidated, the stored
    users are as before and the toast shows the error message, or
    'Failed to update user' when the message is empty. *)
Theorem edit_user_then_submit
        (failure : AdminDashboard.Request -> option Error)
        (u : User.t) (formData : UserManagement.FormData.t)
        (st : AdminDashboard.State) :
  let call :=
    AdminDashboard.UpdateUser (User.id u)
      (UserManagement.userData formData) in
  let st' :=
    exec (UserManagement.handleSubmit failure formData)
         (exec (UserManagement.handleEditUser u) st) in
  AdminDashboard.requests st' = AdminDashboard.requests st ++ [call]
  /\ (failure call = None ->
      AdminDashboard.userDialogOpen st' = false
      /\ AdminDashboard.editingUser st' = None
      /\ AdminDashboard.invalidated st'
         = AdminDashboard.invalidated st ++ [["admin-users"]])
  /\ (forall error,
        failure call = Some error ->
        AdminDashboard.userDialogOpen st' = true
        /\ AdminDashboard.editingUser st' = Some u
        /\ AdminDashboard.invalidated st' = AdminDashboard.invalidated st
        /\ AdminDashboard.users st' = AdminDashboard.users st
        /\ AdminDashboard.toasts st'
           = AdminDashboard.toasts st
             ++ [ToastError
                   (if String.eqb (message error) ""
                    then "Failed to update user"
                    else message error)]).
Proof.
  intros call st'. subst call st'. run_users. simpl.
  destruct (failure _) as [e|]; simpl;
    (split; [reflexivity|split]).
  - intros H. discriminate H.
  - intros error [= <-]. repeat split.
  - intros _. repeat split.
  - intros error H. discriminate H.
Qed.

Lemma edit_user_then_submit_witness :
  AdminDashboard.userDialogOpen
    (exec (UserManagement.handleSubmit Samples.reliable
             (UserManagement.initialFormData (Some Samples.maria)))
          (exec (UserManagement.handleEditUser Samples.maria)
                Samples.admin_page))
  = false.
Proof.
  destruct (edit_user_then_submit Samples.reliable Samples.maria
              (UserManagement.initialFormData (Some Samples.maria))
              Samples.admin_page)
    as (_ & Hsent & _).
  apply Hsent. reflexivity.
Defined.

(** X19: the user form cannot change the active flag: after any series
    of changes to its inputs, the data it submits carry the active flag
    of the edited user, or true when no user is edited. *)
Theorem user_form_keeps_active_flag
        (user : option User.t) (changes : list UserManagement.Change) :
  Backend.PartialUser.is_active
    (UserManagement.userData (UserManagement.edited user changes))
  = Some (match user with
          | Some u => User.is_active u
          | None => true
          end).
Proof.
  unfold UserManagement.edited.
  assert (Hfold : forall f,
    UserManagement.FormData.is_active
      (fold_left (fun prev c => UserManagement.handleChange c prev)
                 changes f)
    = UserManagement.FormData.is_active f).
  { induction changes as [|c rest IH]; intros f; simpl.
    - reflexivity.
    - rewrite IH. now destruct c. }
  simpl. rewrite Hfold. reflexivity.
Qed.

(** X20: no row of the All Users tab offers "Deactivate", whoever is
    signed in and whatever the row: the test compares the identifier of
    the row with itself.  "Activate" is offered on the inactive rows,
    and a row of the Bakers tab offers "Deactivate" when the baker is
    active and "Activate" when not. *)
Theorem all_users_tab_never_deactivates
        (user : option User.t) (row : User.t) :
  ~ In UserManagement.DeactivateButton
       (UserManagement.userRowButtons user row)
  /\ (In UserManagement.ActivateButton
         (UserManagement.userRowButtons user row)
      <-> User.is_active row = false)
  /\ (In UserManagement.DeactivateButton
         (UserManagement.bakerRowButtons row)
      <-> User.is_active row = true)
  /\ (In UserManagement.ActivateButton
         (UserManagement.bakerRowButtons row)
      <-> User.is_active row = false).
Proof.
  unfold UserManagement.userRowButtons, UserManagement.bakerRowButtons.
  rewrite Z.eqb_refl, andb_false_r.
  destruct (User.is_active row); simpl; intuition discriminate.
Qed.

(** X21: the figure shown as "Active Bakers" does not look at the active
    flag: switching the flags of any users, in any way, leaves the
    listed bakers, and so their number, as they were. *)
Theorem baker_count_ignores_active_flag
        (flag : User.t -> bool) (users : list User.t) :
  let switched := map (fun u => Spec.with_active u (flag u)) users in
  map User.id (UserManagement.bakerUsers switched)
  = map User.id (UserManagement.bakerUsers users)
  /\ List.length (UserManagement.bakerUsers switched)
     = List.length (UserManagement.bakerUsers users).
Proof.
  intros switched. subst switched.
  assert (Hids :
    map User.id
      (UserManagement.bakerUsers
         (map (fun u => Spec.with_active u (flag u)) users))
    = map User.id (UserManagement.bakerUsers users)).
  { unfold UserManagement.bakerUsers.
    induction users as [|u rest IH]; simpl.
    - reflexivity.
    - destruct (Catalog.eqb_role (User.role u) Role.baker); simpl;
        now rewrite IH. }
  split; [exact Hids|].
  rewrite <- (length_map User.id), Hids. apply length_map.
Qed.

(** X22: declining the confirmation of a deactivation or of an
    activation leaves everything as it was: no request is sent, no
    stored user changes, nothing is shown. *)
Theorem declined_confirmation_is_noop
        (confirm : string -> bool)
        (failure : AdminDashboard.Request -> option Error)
        (userId : Z) (st : AdminDashboard.State) :
  (confirm "Are you sure you want to deactivate this baker?" = false ->
   exec (AdminDashboard.handleDeactivateUser confirm failure userId) st
   = st)
  /\ (confirm "Are you sure you want to activate this baker?" = false ->
      exec (AdminDashboard.handleActivateUser confirm failure userId) st
      = st).
Proof.
  split; intros Hno; run_users; rewrite Hno; reflexivity.
Qed.

Lemma declined_confirmation_is_noop_witness :
  exec (AdminDashboard.handleDeactivateUser (fun _ => false)
          Samples.reliable 7) Samples.admin_page
  = Samples.admin_page.
Proof.
  apply (proj1 (declined_confirmation_is_noop (fun _ => false)
                  Samples.reliable 7 Samples.admin_page)).
  reflexivity.
Defined.

(** X23: a confirmed deactivation sends one [deactivateUser] call.  When
    the call goes through, the ['admin-users'] query is invalidated and
    the user details dialog is closed; when it fails, nothing is
    invalidated, the details dialog and the stored users are as before,
    and the toast shows the error message, or 'Failed to deactivate
    user' when the message is empty. *)
Theorem deactivate_outcome
        (confirm : string -> bool)
        (failure : AdminDashboard.Request -> option Error)
        (userId : Z) (st : AdminDashboard.State) :
  confirm "Are you sure you want to deactivate this baker?" = true ->
  let st' :=
    exec (AdminDashboard.handleDeactivateUser confirm failure userId) st in
  AdminDashboard.requests st'
  = AdminDashboard.requests st ++ [AdminDashboard.DeactivateUser userId]
  /\ (failure (AdminDashboard.DeactivateUser userId) = None ->
      AdminDashboard.invalidated st'
      = AdminDashboard.invalidated st ++ [["admin-users"]]
      /\ AdminDashboard.selectedUser st' = None
      /\ AdminDashboard.toasts st'
         = AdminDashboard.toasts st
           ++ [ToastSuccess "User deactivated successfully!"])
  /\ (forall error,
        failure (AdminDashboard.DeactivateUser userId) = Some error ->
        AdminDashboard.invalidated st' = AdminDashboard.invalidated st
        /\ AdminDashboard.selectedUser st'
           = AdminDashboard.selectedUser st
        /\ AdminDashboard.users st' = AdminDashboard.users st
        /\ AdminDashboard.toasts st'
           = AdminDashboard.toasts st
             ++ [ToastError
                   (if String.eqb (message error) ""
                    then "Failed to deactivate user"
                    else message error)]).
Proof.
  intros Hyes st'. subst st'. run_users. rewrite Hyes. simpl.
  destruct (failure _) as [e|]; simpl; (split; [reflexivity|split]).
  - intros H. discriminate H.
  - intros error [= <-]. repeat split.
  - intros _. repeat split.
  - intros error H. discriminate H.
Qed.

Lemma deactivate_outcome_witness :
  AdminDashboard.users
    (exec (AdminDashboard.handleDeactivateUser Samples.always_yes
             (fun _ => Some (mkError "Network Error")) 7)
          Samples.admin_page)
  = AdminDashboard.users Samples.admin_page.
Proof.
  destruct (deactivate_outcome Samples.always_yes
              (fun _ => Some (mkError "Network Error")) 7
              Samples.admin_page eq_refl)
    as (_ & _ & Hfailed).
  apply (Hfailed (mkError "Network Error") eq_refl).
Defined.

(** ** The filter controls *)

Lemma digits_shape (n : Z) :
  0 <= n ->
  exists d,
    d <> Decimal.Nil
    /\ digits n = NilEmpty.string_of_uint d
    /\ Z.of_uint d = n.
Proof.
  intros Hn. exists (N.to_uint (Z.to_N n)).
  assert (Hnonnil : N.to_uint (Z.to_N n) <> Decimal.Nil).
  { destruct (Z.to_N n) as [|p]; simpl.
    - discriminate.
    - apply DecimalPos.Unsigned.to_uint_nonnil. }
  split; [exact Hnonnil|split].
  - unfold digits, NilZero.string_of_uint.
    destruct (N.to_uint (Z.to_N n)); [contradiction|reflexivity..].
  - unfold Z.of_uint. change (Pos.of_uint ?d) with (N.of_uint d).
    rewrite DecimalN.Unsigned.of_to. now apply Z2N.id.
Qed.

Lemma digits_nonempty (n : Z) :
  0 <= n -> exists a rest, digits n = String a rest.
Proof.
  intros Hn. destruct (digits_shape n Hn) as (d & Hd & -> & _).
  destruct d; [contradiction|simpl; eauto..].
Qed.

Lemma Number_digits (n : Z) :
  0 <= n -> Filters.Number (digits n) = Filters.Int n.
Proof.
  intros Hn. destruct (digits_nonempty n Hn) as (a & rest & Hs).
  destruct (digits_shape n Hn) as (d & _ & Hd & Hval).
  unfold Filters.Number. rewrite Hs, <- Hs, Hd, NilEmpty.usu, Hval.
  reflexivity.
Qed.

Lemma uint_string_no_dash (d : Decimal.uint) :
  ~ In "-"%char (list_ascii_of_string (NilEmpty.string_of_uint d)).
Proof.
  induction d; simpl; intros H; try contradiction;
    destruct H as [H|H]; try discriminate H; auto.
Qed.

Lemma digits_no_dash (n : Z) :
  0 <= n -> ~ In "-"%char (list_ascii_of_string (digits n)).
Proof.
  intros Hn. destruct (digits_shape n Hn) as (d & _ & -> & _).
  apply uint_string_no_dash.
Qed.

Lemma split_none (c : ascii) (s : string) :
  ~ In c (list_ascii_of_string s) -> Filters.split c s = [s].
Proof.
  induction s as [|a s IH]; simpl; intros Hno.
  - reflexivity.
  - destruct (Ascii.eqb_spec a c) as [E|E].
    + exfalso. apply Hno. now left.
    + rewrite IH; [reflexivity|]. intros H. apply Hno. now right.
Qed.

Lemma split_first (c : ascii) (s t : string) :
  ~ In c (list_ascii_of_string s) ->
  Filters.split c (s ++ String c t)%string = s :: Filters.split c t.
Proof.
  induction s as [|a s IH]; simpl; intros Hno.
  - now rewrite Ascii.eqb_refl.
  - destruct (Ascii.eqb_spec a c) as [E|E].
    + exfalso. apply Hno. now left.
    + rewrite IH; [reflexivity|]. intros H. apply Hno. now right.
Qed.

Lemma truthy_digits (n : Z) :
  0 <= n ->
  Filters.when_truthy (Some (digits n)) Filters.Number
  = Some (Filters.Int n).
Proof.
  intros Hn. unfold Filters.when_truthy.
  destruct (digits_nonempty n Hn) as (a & rest & Hs).
  assert (Hne : String.eqb (digits n) "" = false)
    by (rewrite Hs; reflexivity).
  rewrite Hne. now rewrite Number_digits.
Qed.

Lemma number_or_empty_positive (n : Z) :
  0 < n -> Filters.number_or_empty (Some (Filters.Int n)) = digits n.
Proof.
  intros Hn. simpl.
  destruct (Z.eqb_spec n 0) as [E|_]; [lia|].
  destruct (Z.ltb_spec n 0) as [E|_]; [lia|reflexivity].
Qed.

(** X24: choosing a price range with a positive lower bound stores the
    bounds as numbers and shows the chosen value back: for a range
    [a-b] with [b] positive as well, both bounds are stored; for an open
    range [a-], the upper bound is left out.  The other filters are not
    touched. *)
Theorem price_select_round_trip
        (a b : Z) (filters : Filters.ProductFilters) :
  0 < a ->
  (0 < b ->
   let chosen := (digits a ++ "-" ++ digits b)%string in
   Filters.onPriceChange chosen filters
   = Filters.mk (Filters.search filters) (Filters.category_id filters)
       (Some (Filters.Int a)) (Some (Filters.Int b))
       (Filters.in_stock filters)
   /\ Filters.priceValue (Filters.onPriceChange chosen filters) = chosen)
  /\ (let chosen := (digits a ++ "-")%string in
      Filters.onPriceChange chosen filters
      = Filters.mk (Filters.search filters) (Filters.category_id filters)
          (Some (Filters.Int a)) None (Filters.in_stock filters)
      /\ Filters.priceValue (Filters.onPriceChange chosen filters)
         = chosen).
Proof.
  intros Ha.
  assert (Hda : ~ In "-"%char (list_ascii_of_string (digits a)))
    by (apply digits_no_dash; lia).
  split.
  - intros Hb chosen. subst chosen.
    assert (Hdb : ~ In "-"%char (list_ascii_of_string (digits b)))
      by (apply digits_no_dash; lia).
    assert (Hchange :
      Filters.onPriceChange (digits a ++ "-" ++ digits b)%string filters
      = Filters.mk (Filters.search filters)
          (Filters.category_id filters)
          (Some (Filters.Int a)) (Some (Filters.Int b))
          (Filters.in_stock filters)).
    { unfold Filters.onPriceChange.
      change (digits a ++ "-" ++ digits b)%string
        with (digits a ++ String "-" (digits b))%string.
      rewrite (split_first _ _ _ Hda), (split_none _ _ Hdb).
      cbn [nth_error]. rewrite !truthy_digits by lia. reflexivity. }
    split; [exact Hchange|].
    rewrite Hchange. unfold Filters.priceValue. cbn [Filters.min_price
      Filters.max_price].
    now rewrite !number_or_empty_positive by assumption.
  - intros chosen. subst chosen.
    assert (Hchange :
      Filters.onPriceChange (digits a ++ "-")%string filters
      = Filters.mk (Filters.search filters)
          (Filters.category_id filters)
          (Some (Filters.Int a)) None (Filters.in_stock filters)).
    { unfold Filters.onPriceChange.
      change (digits a ++ "-")%string
        with (digits a ++ String "-" "")%string.
      rewrite (split_first _ _ _ Hda).
      cbn [nth_error Filters.split]. rewrite truthy_digits by lia.
      reflexivity. }
    split; [exact Hchange|].
    rewrite Hchange. unfold Filters.priceValue. cbn [Filters.min_price
      Filters.max_price].
    rewrite number_or_empty_positive by assumption.
    reflexivity.
Qed.

Lemma price_select_round_trip_witness :
  Filters.priceValue (Filters.onPriceChange "50-100" Filters.initial)
  = "50-100".
Proof.
  apply (proj1 (price_select_round_trip 50 100 Filters.initial
                  ltac:(lia)) ltac:(lia)).
Defined.

(** X25: a lower bound of 0 is stored but not shown back: after choosing
    a range [0-b] the filter holds 0 and [b], and the value of the
    select reads [-b].  Choosing the empty value ("All Prices") clears
    both bounds, and the value of the select then reads [-], as it does
    for the initial filters. *)
Theorem price_select_zero_bound
        (b : Z) (filters : Filters.ProductFilters) :
  (0 < b ->
   let chosen := ("0-" ++ digits b)%string in
   Filters.min_price (Filters.onPriceChange chosen filters)
   = Some (Filters.Int 0)
   /\ Filters.max_price (Filters.onPriceChange chosen filters)
      = Some (Filters.Int b)
   /\ Filters.priceValue (Filters.onPriceChange chosen filters)
      = ("-" ++ digits b)%string)
  /\ Filters.min_price (Filters.onPriceChange "" filters) = None
  /\ Filters.max_price (Filters.onPriceChange "" filters) = None
  /\ Filters.priceValue (Filters.onPriceChange "" filters) = "-"
  /\ Filters.priceValue Filters.initial = "-".
Proof.
  split; [|repeat split].
  intros Hb chosen. subst chosen.
  assert (Hdb : ~ In "-"%char (list_ascii_of_string (digits b)))
    by (apply digits_no_dash; lia).
  assert (Hsplit : Filters.split "-" ("0-" ++ digits b)%string
                   = ["0"; digits b]).
  { change ("0-" ++ digits b)%string
      with (String "0" (String "-" (digits b))).
    cbn [Filters.split Ascii.eqb Bool.eqb]. cbn.
    now rewrite (split_none _ _ Hdb). }
  unfold Filters.onPriceChange, Filters.priceValue.
  rewrite Hsplit. cbn [nth_error Filters.min_price Filters.max_price].
  rewrite truthy_digits by lia.
  rewrite number_or_empty_positive by assumption.
  repeat split.
Qed.

Lemma price_select_zero_bound_witness :
  Filters.priceValue (Filters.onPriceChange "0-50" Filters.initial)
  = "-50".
Proof.
  apply (proj1 (price_select_zero_bound 50 Filters.initial)).
  lia.
Defined.

(** X26: the availability select shows back what was chosen: the empty
    value clears the filter, 'true' and 'false' set it, and any other
    non-empty value counts as 'false'. *)
Theorem stock_select_round_trip
        (value : string) (filters : Filters.ProductFilters) :
  Filters.in_stock (Filters.onStockChange value filters)
  = (if String.eqb value "" then None
     else Some (String.eqb value "true"))
  /\ Filters.stockValue (Filters.onStockChange value filters)
     = (if String.eqb value "" then ""
        else if String.eqb value "true" then "true" else "false")
  /\ (In value [""; "true"; "false"] ->
      Filters.stockValue (Filters.onStockChange value filters) = value).
Proof.
  unfold Filters.stockValue, Filters.onStockChange, Filters.when_truthy.
  cbn [Filters.in_stock].
  split; [reflexivity|split].
  - destruct (String.eqb value ""); [reflexivity|].
    destruct (String.eqb value "true"); reflexivity.
  - intros [<-|[<-|[<-|[]]]]; reflexivity.
Qed.

Lemma stock_select_round_trip_witness :
  Filters.stockValue (Filters.onStockChange "false" Filters.initial)
  = "false".
Proof.
  apply (stock_select_round_trip "false" Filters.initial).
  simpl. auto.
Defined.

Lemma click_plus_keeps_bounds_witness :
  Spec.cart_ok
    (cart (exec (clickPlus (CartItem.mk Samples.ensaymada 2))
                (Samples.page Samples.scenario_cart))).
Proof.
  apply click_plus_keeps_bounds.
  - repeat constructor; unfold Spec.line_ok; simpl; lia.
  - simpl. auto.
  - repeat constructor; simpl; intuition discriminate.
Defined.
